(** * Census demographics pipeline: metric derivation and geographic join

    A shallow embedding of the parts of the repository that carry the
    pipeline's invariants:

    - [census_fetch.py]: the variable catalog, the three fetch functions
      with their GEOID composition, and [calculate_percentage];
    - [map_visualize.py]: [load_geometries] and [merge_data];
    - [census_output/island_county_income_tracts_map.py]: the tract-level
      income cleaning step of [fetch_income_data];
    - [create_state_density_map.py]: the area-unit conversion of [main].

    The pandas operations the scripts call ([DataFrame] construction, column
    read and assignment, [to_numeric], element-wise arithmetic, boolean
    masks, [dropna], [merge]) are modelled in [Module pandas] on tables of
    Python objects; numbers are IEEE-754 binary64 values, as in the
    interpreter. *)

From Stdlib Require Import ZArith List String Ascii Bool Lia.
From Stdlib Require Import Floats DecimalString.
From stdpp Require Import base option list gmap strings.
Import ListNotations.

Set Warnings "-inexact-float".
Local Open Scope string_scope.

(* ===================================================================== *)
(** ** Python values, exceptions and the interpreter state *)
(* ===================================================================== *)

Module python.

(** The objects that occur as table cells: text, integers, floats,
    [None], and opaque geometry objects (shapely polygons, named by
    their well-known text). *)
Inductive cell : Type :=
| CStr (s : string)
| CInt (z : Z)
| CFloat (f : float)
| CNone
| CGeom (wkt : string).

Inductive exn : Type :=
| ValueError (msg : string)
| KeyError (key : string)
| TypeError (msg : string)
| RequestException (msg : string)
| MergeError (duplicates : list string)
| InvalidReference (r : nat).

(** A computation that may raise. *)
Definition result (A : Type) : Type := exn + A.

Definition ok {A} (a : A) : result A := inr a.
Definition raise {A} (e : exn) : result A := inl e.

Definition bind {A B} (r : result A) (k : A -> result B) : result B :=
  match r with
  | inl e => inl e
  | inr a => k a
  end.

(** [str(n)] on an integer. *)
Definition str_of_Z (z : Z) : string := NilZero.string_of_int (Z.to_int z).
Definition str_of_nat (n : nat) : string := str_of_Z (Z.of_nat n).

(** [sep.join(parts)]. *)
Fixpoint join (sep : string) (parts : list string) : string :=
  match parts with
  | [] => ""
  | [p] => p
  | p :: rest => p ++ sep ++ join sep rest
  end.

(** [float(n)] on an integer: the nearest binary64 value. *)
Definition float_of_Z (z : Z) : float :=
  SF2Prim (binary_normalize prec emax z 0 false).

(** Dictionaries keep insertion order ([keys()], [items()]), so they are
    association lists; a key occurs once. *)
Definition dict (V : Type) : Type := list (string * V).

Fixpoint dict_get {V} (d : dict V) (k : string) : option V :=
  match d with
  | [] => None
  | (k', v) :: rest => if String.eqb k k' then Some v else dict_get rest k
  end.

Definition dict_keys {V} (d : dict V) : list string := List.map fst d.

(** [k in d]. *)
Definition dict_contains {V} (d : dict V) (k : string) : bool :=
  existsb (String.eqb k) (dict_keys d).

End python.
Import python.

Declare Scope py_scope.
Delimit Scope py_scope with py.
Notation "'let*' x ':=' c 'in' k" := (bind c (fun x => k))
  (at level 10, x name, c at level 100, k at level 200) : py_scope.
Local Open Scope py_scope.

(* ===================================================================== *)
(** ** The pandas operations the scripts use *)
(* ===================================================================== *)

Module pandas.

(** A column of a table. *)
Definition Series : Type := list cell.

(** A table: its number of rows ([len(df)]) and its labelled columns in
    order.  In a table every column has [nrows] cells and the labels are
    distinct ([well_formed]); the operations below are the pandas ones on
    such tables. *)
Record DataFrame : Type := Frame {
  nrows : nat;
  columns : list (string * Series)
}.

Definition labels (df : DataFrame) : list string := List.map fst (columns df).

Definition well_formed (df : DataFrame) : Prop :=
  NoDup (labels df) /\ Forall (fun c => length (snd c) = nrows df) (columns df).

(** [df[label]]. *)
Definition getitem (df : DataFrame) (label : string) : result Series :=
  match dict_get (columns df) label with
  | Some col => ok col
  | None => raise (KeyError label)
  end.

Fixpoint assign {V} (d : dict V) (k : string) (v : V) : dict V :=
  match d with
  | [] => [(k, v)]
  | (k', v') :: rest =>
      if String.eqb k k' then (k', v) :: rest else (k', v') :: assign rest k v
  end.

(** [df[label] = col], for a column aligned with the table: an existing
    column is replaced where it stands, a new one is appended. *)
Definition setitem (df : DataFrame) (label : string) (col : Series) : DataFrame :=
  Frame (nrows df) (assign (columns df) label col).

(** [df[[l1, ..., ln]]]. *)
Fixpoint select (df : DataFrame) (ls : list string) : result (list (string * Series)) :=
  match ls with
  | [] => ok []
  | l :: rest =>
      let* col := getitem df l in
      let* cols := select df rest in
      ok ((l, col) :: cols)
  end.

Definition getitems (df : DataFrame) (ls : list string) : result DataFrame :=
  let* cols := select df ls in ok (Frame (nrows df) cols).

(** Missing values: [None] and NaN. *)
Definition isna (c : cell) : bool :=
  match c with
  | CNone => true
  | CFloat f => PrimFloat.is_nan f
  | _ => false
  end.

Definition notna (c : cell) : bool := negb (isna c).

(** *** Construction *)

Fixpoint union_keys (seen : list string) (ks : list string) : list string :=
  match ks with
  | [] => seen
  | k :: rest =>
      if existsb (String.eqb k) seen then union_keys seen rest
      else union_keys (seen ++ [k]) rest
  end.

(** [pd.DataFrame(records)] on a list of dictionaries: one row per
    dictionary, one column per key in order of first appearance, NaN
    where a dictionary lacks the key. *)
Definition DataFrame_of_records (records : list (dict cell)) : DataFrame :=
  let keys := fold_left (fun seen r => union_keys seen (dict_keys r)) records [] in
  Frame (length records)
        (List.map (fun k =>
           (k, List.map (fun r => match dict_get r k with
                                  | Some v => v
                                  | None => CFloat nan
                                  end) records)) keys).

Definition widest (rows : list (list cell)) : nat :=
  fold_right (fun r w => Nat.max (length r) w) 0 rows.

Fixpoint columns_of_rows (j : nat) (header : list string) (rows : list (list cell))
  : list (string * Series) :=
  match header with
  | [] => []
  | h :: rest =>
      (h, List.map (fun r => nth j r CNone) rows) :: columns_of_rows (S j) rest rows
  end.

(** [pd.DataFrame(rows, columns=header)] on a list of lists: short rows
    are padded with [None]; the widest row must have as many cells as
    the header has labels. *)
Definition DataFrame_of_rows (rows : list (list cell)) (header : list string)
  : result DataFrame :=
  match rows with
  | [] => ok (Frame 0 (List.map (fun h => (h, [])) header))
  | _ =>
      if Nat.eqb (widest rows) (length header)
      then ok (Frame (length rows) (columns_of_rows 0 header rows))
      else raise (ValueError (str_of_nat (length header) ++ " columns passed, passed data had "
                              ++ str_of_nat (widest rows) ++ " columns"))
  end.

(** *** Element-wise arithmetic *)

(** [a + b] on two cells of object columns: where either side is
    missing the result is NaN; text is concatenated; numbers are added;
    anything else is a [TypeError] of the whole operation. *)
Definition cell_add (a b : cell) : result cell :=
  if isna a || isna b then ok (CFloat nan)
  else match a, b with
       | CStr s, CStr t => ok (CStr (s ++ t))
       | CInt x, CInt y => ok (CInt (x + y))
       | CInt x, CFloat g => ok (CFloat (float_of_Z x + g))
       | CFloat f, CInt y => ok (CFloat (f + float_of_Z y))
       | CFloat f, CFloat g => ok (CFloat (f + g))
       | _, _ => raise (TypeError "unsupported operand type(s) for +")
       end.

(** [a + b] on two columns of one table (they have the same rows). *)
Fixpoint series_add (a b : Series) : result Series :=
  match a, b with
  | x :: a', y :: b' =>
      let* z := cell_add x y in
      let* rest := series_add a' b' in
      ok (z :: rest)
  | _, _ => ok []
  end.

Fixpoint zip_with {A B C} (f : A -> B -> C) (a : list A) (b : list B) : list C :=
  match a, b with
  | x :: a', y :: b' => f x y :: zip_with f a' b'
  | _, _ => []
  end.

(** [a / b] and [a * k] on float64 columns. *)
Definition series_div (a b : list float) : list float := zip_with PrimFloat.div a b.
Definition series_mul (a : list float) (k : float) : list float :=
  List.map (fun x => PrimFloat.mul x k) a.

Definition float_series (a : list float) : Series := List.map CFloat a.

Section Numeric.

(** The text-to-number conversion of [pd.to_numeric]: the value of a
    numeric text, [None] for any other text. *)
Variable str_to_float : string -> option float.

Definition to_numeric_cell (c : cell) : float :=
  match c with
  | CStr s => match str_to_float s with
              | Some f => f
              | None => nan
              end
  | CInt z => float_of_Z z
  | CFloat f => f
  | CNone => nan
  | CGeom _ => nan
  end.

(** [pd.to_numeric(col, errors='coerce')]: what does not convert
    becomes NaN. *)
Definition to_numeric (col : Series) : list float := List.map to_numeric_cell col.

End Numeric.

(** *** Comparison and row selection *)

(** [c > 0]. *)
Definition cell_gt_zero (c : cell) : result bool :=
  match c with
  | CFloat f => ok (PrimFloat.ltb 0 f)
  | CInt z => ok (Z.ltb 0 z)
  | _ => raise (TypeError "'>' not supported between instances")
  end.

Fixpoint series_gt_zero (col : Series) : result (list bool) :=
  match col with
  | [] => ok []
  | c :: rest =>
      let* b := cell_gt_zero c in
      let* bs := series_gt_zero rest in
      ok (b :: bs)
  end.

Fixpoint mask_select {A} (mask : list bool) (l : list A) : list A :=
  match mask, l with
  | true :: mask', x :: l' => x :: mask_select mask' l'
  | false :: mask', _ :: l' => mask_select mask' l'
  | _, _ => []
  end.

(** [df[mask]] for a boolean column [mask] of the table. *)
Definition getmask (df : DataFrame) (mask : list bool) : DataFrame :=
  Frame (length (List.filter id mask))
        (List.map (fun c => (fst c, mask_select mask (snd c))) (columns df)).

(** [df.dropna(subset=[label])]. *)
Definition dropna (df : DataFrame) (label : string) : result DataFrame :=
  let* col := getitem df label in
  ok (getmask df (List.map notna col)).

(** *** Left join *)

(** Two join keys denote the same group: equal text, equal numbers, or
    both missing. *)
Definition key_match (a b : cell) : bool :=
  if isna a || isna b then isna a && isna b
  else match a, b with
       | CStr s, CStr t => String.eqb s t
       | CInt x, CInt y => Z.eqb x y
       | CInt x, CFloat g => PrimFloat.eqb (float_of_Z x) g
       | CFloat f, CInt y => PrimFloat.eqb f (float_of_Z y)
       | CFloat f, CFloat g => PrimFloat.eqb f g
       | CGeom s, CGeom t => String.eqb s t
       | _, _ => false
       end.

(** Row numbers, from [j] on, of the cells of [col] that satisfy [p]. *)
Fixpoint positions (p : cell -> bool) (col : Series) (j : nat) : list nat :=
  match col with
  | [] => []
  | c :: rest => if p c then j :: positions p rest (S j) else positions p rest (S j)
  end.

(** The row pairs of a left join: the left rows in order, each with its
    matching right rows in order, or with no right row when none
    matches. *)
Fixpoint left_join_indexer (lk rk : Series) (i : nat) : list (nat * option nat) :=
  match lk with
  | [] => []
  | k :: rest =>
      match positions (key_match k) rk 0 with
      | [] => [(i, None)]
      | js => List.map (fun j => (i, Some j)) js
      end ++ left_join_indexer rest rk (S i)
  end.

Definition take_left (idx : list (nat * option nat)) (col : Series) : Series :=
  List.map (fun p => nth (fst p) col CNone) idx.

Definition take_right (idx : list (nat * option nat)) (col : Series) : Series :=
  List.map (fun p => match snd p with
                     | Some j => nth j col CNone
                     | None => CFloat nan
                     end) idx.

Definition has_label (ls : list string) (l : string) : bool := existsb (String.eqb l) ls.

(** The label a column of the left table takes in the join, and the
    label a column of the right table takes: a label both tables have
    (other than the key) gets the suffix [_x] on the left and [_y] on
    the right. *)
Definition left_label (right : DataFrame) (on l : string) : string :=
  if negb (String.eqb l on) && has_label (labels right) l then l ++ "_x" else l.

Definition right_label (left : DataFrame) (l : string) : string :=
  if has_label (labels left) l then l ++ "_y" else l.

(** The labels of one side that a suffix turns into duplicates: a label
    of [after] that repeats an earlier one while its original in [before]
    repeats none. *)
Fixpoint new_duplicates (seen seen' before after : list string) : list string :=
  match before, after with
  | b :: before', a :: after' =>
      (if has_label seen' a && negb (has_label seen b) then [a] else [])
      ++ new_duplicates (seen ++ [b]) (seen' ++ [a]) before' after'
  | _, _ => []
  end.

(** The columns of the right table but the key. *)
Definition without_key (right : DataFrame) (on : string) : list (string * Series) :=
  List.filter (fun c => negb (String.eqb (fst c) on)) (columns right).

Definition suffix_duplicates (left right : DataFrame) (on : string) : list string :=
  (new_duplicates [] [] (labels left) (List.map (left_label right on) (labels left))
   ++ new_duplicates [] [] (List.map fst (without_key right on))
        (List.map (right_label left) (List.map fst (without_key right on))))%list.

(** [left.merge(right, on=on, how='left')]: every column of [left], then
    the columns of [right] but the key; suffixes that make two columns of
    one side share a label are refused. *)
Definition merge_left (left right : DataFrame) (on : string) : result DataFrame :=
  let* lk := getitem left on in
  let* rk := getitem right on in
  let idx := left_join_indexer lk rk 0 in
  match suffix_duplicates left right on with
  | [] =>
      let lcols :=
        List.map (fun c => (left_label right on (fst c), take_left idx (snd c)))
                 (columns left) in
      let rcols :=
        List.map (fun c => (right_label left (fst c), take_right idx (snd c)))
                 (without_key right on) in
      ok (Frame (length idx) (lcols ++ rcols))
  | dups => raise (MergeError dups)
  end.

End pandas.
Import pandas.

(* ===================================================================== *)
(** ** Effects: the object store, the console and the network *)
(* ===================================================================== *)

Module runtime.

(** A query of the statistical API through the [census] client. *)
Inductive acs5_query : Type :=
| Acs5State (fields : list string) (state_fips : string) (year : Z)
| Acs5StateCounty (fields : list string) (state_fips county_fips : string) (year : Z)
| Acs5StateCountyTract (fields : list string) (state_fips county_fips tract : string) (year : Z).

Inductive event : Type :=
| Print (line : string)
| HttpGet (url : string) (params : list (string * string))
| ApiGet (q : acs5_query).

(** A table that a function changes in place lives in the store and is
    passed by reference; the trace lists what was printed and requested,
    oldest first. *)
Record world : Type := World {
  heap : gmap nat DataFrame;
  trace : list event
}.

Definition Py (A : Type) : Type := world -> result A * world.

Definition ret {A} (a : A) : Py A := fun w => (inr a, w).

Definition pbind {A B} (m : Py A) (k : A -> Py B) : Py B :=
  fun w => match m w with
           | (inl e, w') => (inl e, w')
           | (inr a, w') => k a w'
           end.

Definition lift {A} (r : result A) : Py A := fun w => (r, w).

Definition emit (e : event) : Py unit :=
  fun w => (inr tt, World (heap w) (trace w ++ [e])).

Definition deref (r : nat) : Py DataFrame :=
  fun w => match heap w !! r with
           | Some df => (inr df, w)
           | None => (inl (InvalidReference r), w)
           end.

Definition store (r : nat) (df : DataFrame) : Py unit :=
  fun w => (inr tt, World (<[r := df]> (heap w)) (trace w)).

End runtime.
Import runtime.

Notation "'do*' x ':=' c 'in' k" := (pbind c (fun x => k))
  (at level 10, x name, c at level 100, k at level 200) : py_scope.
Notation "'run*' c 'in' k" := (pbind c (fun _ => k))
  (at level 10, c at level 100, k at level 200) : py_scope.

(* ===================================================================== *)
(** ** census_fetch.py *)
(* ===================================================================== *)

Module census_fetch.

(** [CensusDataFetcher.VARIABLES]: category, then metric name, then
    provider code. *)
Definition VARIABLES : dict (dict string) :=
  [ ("population",
      [ ("total", "B01003_001E");
        ("density", "B01003_001E") ]);
    ("age",
      [ ("median", "B01002_001E");
        ("total", "B01001_001E");
        ("under_18", "B01001_003E");
        ("over_65", "B01001_020E") ]);
    ("race",
      [ ("white", "B02001_002E");
        ("black", "B02001_003E");
        ("native", "B02001_004E");
        ("asian", "B02001_005E");
        ("pacific", "B02001_006E");
        ("other", "B02001_007E");
        ("two_or_more", "B02001_008E");
        ("hispanic", "B03003_003E") ]);
    ("education",
      [ ("total_25_over", "B15003_001E");
        ("high_school", "B15003_017E");
        ("some_college", "B15003_019E");
        ("associates", "B15003_021E");
        ("bachelors", "B15003_022E");
        ("masters", "B15003_023E");
        ("professional", "B15003_024E");
        ("doctorate", "B15003_025E") ]);
    ("income",
      [ ("median_household", "B19013_001E");
        ("per_capita", "B19301_001E");
        ("mean_household", "B19025_001E") ]);
    ("housing",
      [ ("total_units", "B25001_001E");
        ("median_value", "B25077_001E");
        ("median_rent", "B25064_001E");
        ("owner_occupied", "B25003_002E");
        ("renter_occupied", "B25003_003E") ]);
    ("employment",
      [ ("in_labor_force", "B23025_002E");
        ("employed", "B23025_004E");
        ("unemployed", "B23025_005E") ]) ].

(** [get_variables_for_category]: the (name, code) pairs of a category,
    or a [ValueError] that lists the categories. *)
Definition get_variables_for_category (category : string)
  : result (list (string * string)) :=
  if negb (dict_contains VARIABLES category) then
    let available := join ", " (dict_keys VARIABLES) in
    raise (ValueError ("Unknown category '" ++ category ++ "'. Available: " ++ available))
  else
    match dict_get VARIABLES category with
    | Some entries => ok entries
    | None => raise (KeyError category)
    end.

Section Fetcher.

(** What the [census] client answers to a query: the rows as
    dictionaries, or the exception it raises. *)
Variable acs5 : acs5_query -> result (list (dict cell)).

Definition query (q : acs5_query) : Py (list (dict cell)) :=
  run* emit (ApiGet q) in lift (acs5 q).

(** [fetch_state_data(variables, year=2021, state_fips='*')]. *)
Definition fetch_state_data (variables : list string) (year : Z) (state_fips : string)
  : Py DataFrame :=
  let fields := "NAME" :: variables in
  do* data := query (Acs5State fields state_fips year) in
  let df := DataFrame_of_records data in
  do* geoid := lift (getitem df "state") in
  ret (setitem df "GEOID" geoid).

(** [fetch_county_data(variables, year=2021, state_fips='*', county_fips='*')]. *)
Definition fetch_county_data (variables : list string) (year : Z)
  (state_fips county_fips : string) : Py DataFrame :=
  let fields := "NAME" :: variables in
  do* data := query (Acs5StateCounty fields state_fips county_fips year) in
  let df := DataFrame_of_records data in
  do* geoid := lift (let* state := getitem df "state" in
                     let* county := getitem df "county" in
                     series_add state county) in
  ret (setitem df "GEOID" geoid).

(** [fetch_tract_data(variables, state_fips, county_fips='*', year=2021)]. *)
Definition fetch_tract_data (variables : list string) (state_fips county_fips : string)
  (year : Z) : Py DataFrame :=
  let fields := "NAME" :: variables in
  do* data := query (Acs5StateCountyTract fields state_fips county_fips "*" year) in
  let df := DataFrame_of_records data in
  do* geoid := lift (let* state := getitem df "state" in
                     let* county := getitem df "county" in
                     let* state_county := series_add state county in
                     let* tract := getitem df "tract" in
                     series_add state_county tract) in
  ret (setitem df "GEOID" geoid).

End Fetcher.

Section Calculator.

Variable str_to_float : string -> option float.

(** [calculate_percentage(df, numerator_col, denominator_col,
    result_col)]: the table [df] refers to receives the column in
    place, and the same reference is returned. *)
Definition calculate_percentage (df : nat)
  (numerator_col denominator_col result_col : string) : Py nat :=
  do* frame := deref df in
  do* numerator := lift (getitem frame numerator_col) in
  do* denominator := lift (getitem frame denominator_col) in
  let percentage :=
    series_mul (series_div (to_numeric str_to_float numerator)
                           (to_numeric str_to_float denominator)) 100 in
  run* store df (setitem frame result_col (float_series percentage)) in
  ret df.

End Calculator.

End census_fetch.

(* ===================================================================== *)
(** ** map_visualize.py *)
(* ===================================================================== *)

Module map_visualize.

(** Truth value of an optional text: [None] and the empty text are
    false. *)
Definition truthy (s : option string) : bool :=
  match s with
  | Some (String _ _) => true
  | _ => false
  end.

Definition text (s : option string) : string :=
  match s with
  | Some t => t
  | None => "None"
  end.

Section Loader.

(** What [gpd.read_file(url)] answers: the boundary table, or the
    exception it raises. *)
Variable read_file : string -> result DataFrame.

(** [load_geometries(level='county', state=None, year=2021)]. *)
Definition load_geometries (level : string) (state : option string) (year : Z)
  : Py DataFrame :=
  let y := str_of_Z year in
  let base_url := "https://www2.census.gov/geo/tiger/TIGER" ++ y in
  do* url := lift (
    if String.eqb level "state" then
      ok (base_url ++ "/STATE/tl_" ++ y ++ "_us_state.zip")
    else if String.eqb level "county" then
      ok (base_url ++ "/COUNTY/tl_" ++ y ++ "_us_county.zip")
    else if String.eqb level "tract" then
      if negb (truthy state) then
        raise (ValueError "State FIPS required for tract-level geometries")
      else ok (base_url ++ "/TRACT/tl_" ++ y ++ "_" ++ text state ++ "_tract.zip")
    else raise (ValueError ("Unknown level: " ++ level))) in
  run* emit (Print ("Loading " ++ level ++ "-level geometries from Census TIGER/Line...")) in
  run* emit (HttpGet url []) in
  do* gdf := lift (read_file url) in
  do* gdf := lift (
    if String.eqb level "state" then
      let* statefp := getitem gdf "STATEFP" in
      ok (setitem gdf "GEOID" statefp)
    else if String.eqb level "county" then
      let* statefp := getitem gdf "STATEFP" in
      let* countyfp := getitem gdf "COUNTYFP" in
      let* geoid := series_add statefp countyfp in
      ok (setitem gdf "GEOID" geoid)
    else if String.eqb level "tract" then
      let* statefp := getitem gdf "STATEFP" in
      let* countyfp := getitem gdf "COUNTYFP" in
      let* state_county := series_add statefp countyfp in
      let* tractce := getitem gdf "TRACTCE" in
      let* geoid := series_add state_county tractce in
      ok (setitem gdf "GEOID" geoid)
    else ok gdf) in
  run* emit (Print ("Loaded " ++ str_of_nat (nrows gdf) ++ " " ++ level ++ " geometries")) in
  ret gdf.

End Loader.

(** [merge_data(geometries, data, on='GEOID')]. *)
Definition merge_data (geometries data : DataFrame) (on : string) : Py DataFrame :=
  do* merged := lift (merge_left geometries data on) in
  run* emit (Print ("Merged data: " ++ str_of_nat (nrows merged) ++ " features")) in
  ret merged.

End map_visualize.

(* ===================================================================== *)
(** ** census_output/island_county_income_tracts_map.py *)
(* ===================================================================== *)

Module island_county_income_tracts_map.

(** The body of the API's answer ([response.json()]): a JSON array of
    arrays, the first row the column headers ([data[0]]), the rest the
    data rows ([data[1:]]). *)
Record json_table : Type := Json {
  header : list string;
  rows : list (list cell)
}.

(** [try: body except requests.exceptions.RequestException as e: handler]. *)
Definition except_request {A} (body : Py A) (handler : string -> Py A) : Py A :=
  fun w => match body w with
           | (inl (RequestException e), w') => handler e w'
           | r => r
           end.

Definition base_url : string := "https://api.census.gov/data/2022/acs/acs5".

Definition params : list (string * string) :=
  [ ("get", "NAME,B19013_001E");
    ("for", "tract:*");
    ("in", "state:53 county:029") ].

Section Fetch.

Variable str_to_float : string -> option float.

(** What [requests.get(...)], [raise_for_status()] and [json()] give
    together: the table, or the [RequestException] raised. *)
Variable get_json : string -> list (string * string) -> result json_table.

(** [fetch_income_data()]. *)
Definition fetch_income_data : Py (option DataFrame) :=
  run* emit (Print "Fetching median household income data for Island County census tracts...") in
  except_request
    (run* emit (HttpGet base_url params) in
     do* data := lift (get_json base_url params) in
     do* df := lift (
       let* df := DataFrame_of_rows (rows data) (header data) in
       let* name := getitem df "NAME" in
       let df := setitem df "tract_name" name in
       let* estimate := getitem df "B19013_001E" in
       let df := setitem df "median_income"
                   (float_series (to_numeric str_to_float estimate)) in
       let* tract := getitem df "tract" in
       let df := setitem df "tract_fips" tract in
       let* county := getitem df "county" in
       let df := setitem df "county_fips" county in
       let* state := getitem df "state" in
       let df := setitem df "state_fips" state in
       let* state := getitem df "state" in
       let* county := getitem df "county" in
       let* state_county := series_add state county in
       let* tract := getitem df "tract" in
       let* full := series_add state_county tract in
       let df := setitem df "full_fips" full in
       let* df := dropna df "median_income" in
       let* income := getitem df "median_income" in
       let* positive := series_gt_zero income in
       ok (getmask df positive)) in
     run* emit (Print ("Successfully fetched data for " ++ str_of_nat (nrows df)
                       ++ " census tracts in Island County")) in
     do* out := lift (getitems df ["tract_name"; "median_income"; "full_fips";
                                   "tract_fips"; "county_fips"; "state_fips"]) in
     ret (Some out))
    (fun e =>
       run* emit (Print ("Error fetching data: " ++ e)) in
       ret None).

End Fetch.

End island_county_income_tracts_map.

(* ===================================================================== *)
(** ** create_state_density_map.py *)
(* ===================================================================== *)

Module create_state_density_map.

(** The area step of [main]: [merged_albers.geometry.area /
    2589988.110336], on the column of planar areas in square meters. *)
Definition area_sq_mi (area : list float) : list float :=
  List.map (fun a => PrimFloat.div a 2589988.110336%float) area.

End create_state_density_map.

(* ===================================================================== *)
(** ** Running the model: a text-to-number conversion and sample tables *)
(* ===================================================================== *)

Module samples.

Definition digit_value (c : ascii) : option Z :=
  let n := Z.of_nat (nat_of_ascii c) in
  if ((48 <=? n) && (n <=? 57))%Z then Some (n - 48)%Z else None.

Fixpoint digits_value (acc : Z) (s : string) : option Z :=
  match s with
  | EmptyString => Some acc
  | String c rest =>
      match digit_value c with
      | Some d => digits_value (10 * acc + d)%Z rest
      | None => None
      end
  end.

(** The conversion restricted to integer texts (an optional sign, then
    digits), the form in which the provider sends counts and dollar
    amounts; any other text does not convert. *)
Definition integer_text_to_float (s : string) : option float :=
  match s with
  | EmptyString => None
  | String "-" (String _ _ as ds) => option_map (fun z => float_of_Z (- z)) (digits_value 0 ds)
  | String "+" (String _ _ as ds) => option_map float_of_Z (digits_value 0 ds)
  | ds => option_map float_of_Z (digits_value 0 ds)
  end.

Definition empty_world : world := World ∅ [].

(** A table of counts: a plain ratio, a zero denominator, a text that
    is not a number. *)
Definition ratio_table : DataFrame :=
  Frame 3 [ ("num", [CInt 50; CInt 50; CStr "N/A"]);
            ("den", [CInt 200; CInt 0; CInt 200]);
            ("NAME", [CStr "A"; CStr "B"; CStr "C"]) ].

Definition ratio_world : world := World {[ 0%nat := ratio_table ]} [].

(** Two county boundaries, the income of one of them, and an income
    table that lists that county twice. *)
Definition counties : DataFrame :=
  Frame 2 [ ("STATEFP", [CStr "53"; CStr "53"]);
            ("COUNTYFP", [CStr "029"; CStr "033"]);
            ("geometry", [CGeom "POLYGON ((0 0, 1 0, 1 1, 0 0))";
                          CGeom "POLYGON ((2 2, 3 2, 3 3, 2 2))"]);
            ("GEOID", [CStr "53029"; CStr "53033"]) ].

(** An answer of the API for three tracts: an income, a suppressed
    income, and a zero. *)
Definition island_answer : island_county_income_tracts_map.json_table :=
  island_county_income_tracts_map.Json
    ["NAME"; "B19013_001E"; "state"; "county"; "tract"]
    [ [CStr "Census Tract 9701"; CStr "75000"; CStr "53"; CStr "029"; CStr "970100"];
      [CStr "Census Tract 9702"; CStr "-666666666"; CStr "53"; CStr "029"; CStr "970200"];
      [CStr "Census Tract 9703"; CStr "0"; CStr "53"; CStr "029"; CStr "970300"];
      [CStr "Census Tract 9704"; CNone; CStr "53"; CStr "029"; CStr "970400"] ].

(** A table with a suppressed count over a population. *)
Definition suppressed_table : DataFrame :=
  Frame 1 [ ("B19013_001E", [CStr "-666666666"]);
            ("B01003_001E", [CStr "1000"]) ].

Definition suppressed_world : world := World {[ 0%nat := suppressed_table ]} [].

(** The rows the client returns for the two counties. *)
Definition county_records : list (dict cell) :=
  [ [ ("NAME", CStr "Island County, Washington"); ("B19013_001E", CStr "75000");
      ("state", CStr "53"); ("county", CStr "029") ];
    [ ("NAME", CStr "King County, Washington"); ("B19013_001E", CStr "106326");
      ("state", CStr "53"); ("county", CStr "033") ] ].

Definition income : DataFrame :=
  Frame 1 [ ("GEOID", [CStr "53029"]);
            ("median_income", [CFloat 75000]) ].

Definition income_twice : DataFrame :=
  Frame 2 [ ("GEOID", [CStr "53029"; CStr "53029"]);
            ("median_income", [CFloat 75000; CFloat 76000]) ].

End samples.

(* ===================================================================== *)
(** ** The vocabulary of the specification *)
(* ===================================================================== *)

Module contract.

(** [msg] contains [name] as a contiguous part. *)
Definition mentions (msg name : string) : Prop :=
  exists pre post, msg = pre ++ name ++ post.

(** The supported geography levels and the FIPS components of a
    geographic unit. *)
Inductive level : Type := State | County | Tract.

Definition level_name (l : level) : string :=
  match l with
  | State => "state"
  | County => "county"
  | Tract => "tract"
  end.

Record fips : Type := Fips {
  state_code : string;
  county_code : string;
  tract_code : string
}.

(** The specification's [buildGeoid]: the components the level needs,
    concatenated in the fixed order, without separator. *)
Definition buildGeoid (l : level) (u : fips) : string :=
  match l with
  | State => state_code u
  | County => state_code u ++ county_code u
  | Tract => state_code u ++ county_code u ++ tract_code u
  end.

(** The specification's [fetch(level, ...)]: the fetch function of the
    level. *)
Definition fetch (acs5 : acs5_query -> result (list (dict cell))) (l : level)
  (variables : list string) (year : Z) (state_fips county_fips : string) : Py DataFrame :=
  match l with
  | State => census_fetch.fetch_state_data acs5 variables year state_fips
  | County => census_fetch.fetch_county_data acs5 variables year state_fips county_fips
  | Tract => census_fetch.fetch_tract_data acs5 variables state_fips county_fips year
  end.

Definition codes (proj : fips -> string) (units : list fips) : Series :=
  List.map (fun u => CStr (proj u)) units.

(** The response fields of [df] and the attribute fields of [shp] that
    the level uses carry the codes of the same units, row by row. *)
Definition same_components (l : level) (units : list fips) (df shp : DataFrame) : Prop :=
  (getitem df "state" = ok (codes state_code units)
   /\ getitem shp "STATEFP" = ok (codes state_code units))
  /\ (l <> State ->
      getitem df "county" = ok (codes county_code units)
      /\ getitem shp "COUNTYFP" = ok (codes county_code units))
  /\ (l = Tract ->
      getitem df "tract" = ok (codes tract_code units)
      /\ getitem shp "TRACTCE" = ok (codes tract_code units)).

(** The row of the key [g] in a list of keys. *)
Fixpoint index_of (g : string) (keys : list string) : option nat :=
  match keys with
  | [] => None
  | k :: rest => if String.eqb g k then Some 0%nat else option_map S (index_of g rest)
  end.

(** The cell a metric column holds for the geographic unit [g]: the
    cell of the metric row whose key is [g], a missing value when the
    metric table has no such row. *)
Definition lookup_metric (keys : list string) (col : Series) (g : string) : cell :=
  match index_of g keys with
  | Some j => nth j col CNone
  | None => CFloat nan
  end.

(** The number of metric rows whose key is [g]. *)
Definition count_key (g : string) (keys : list string) : nat :=
  length (List.filter (String.eqb g) keys).

(** The geometry row numbers, from [i] on, each as many times as the
    metric table has rows with its key, and once when it has none. *)
Fixpoint row_copies (keys : list string) (i : nat) (gkeys : list string) : list nat :=
  match gkeys with
  | [] => []
  | g :: rest => repeat i (Nat.max 1 (count_key g keys)) ++ row_copies keys (S i) rest
  end.

(** A table given row by row: each column is a function of the row. *)
Definition rowframe (rs : list (list cell)) (cols : dict (list cell -> cell)) : DataFrame :=
  Frame (length rs) (List.map (fun c => (fst c, List.map (snd c) rs)) cols).

(** The columns a header gives: the [j]-th label reads the [j]-th cell
    of a row ([None] when the row is shorter). *)
Fixpoint header_fields (j : nat) (header : list string) : dict (list cell -> cell) :=
  match header with
  | [] => []
  | h :: rest => (h, fun r => nth j r CNone) :: header_fields (S j) rest
  end.

(** The cell of a data row under a header label. *)
Definition field (header : list string) (label : string) (r : list cell) : cell :=
  match dict_get (header_fields 0 header) label with
  | Some f => f r
  | None => CNone
  end.

(** Concatenation of two FIPS cells: text with text, missing otherwise. *)
Definition add_text (a b : cell) : cell :=
  match a, b with
  | CStr s, CStr t => CStr (s ++ t)
  | _, _ => CFloat nan
  end.

(** A cell that is text or missing. *)
Definition fips_cell (c : cell) : bool :=
  match c with
  | CStr _ => true
  | _ => isna c
  end.

Import island_county_income_tracts_map.

(** An answer of the statistical API as section 6 of the specification
    describes it: distinct column headers, among them the ones the
    script reads; data rows as wide as the header; cells that are text
    or null. *)
Definition census_answer (t : json_table) : Prop :=
  NoDup (header t)
  /\ (In "NAME" (header t) /\ In "B19013_001E" (header t) /\ In "state" (header t)
      /\ In "county" (header t) /\ In "tract" (header t))
  /\ Forall (fun r => length r = length (header t)) (rows t)
  /\ Forall (Forall (fun c => fips_cell c = true)) (rows t).

(** The median income of a data row, as the cleaning step reads it. *)
Definition income (stf : string -> option float) (t : json_table) (r : list cell) : float :=
  to_numeric_cell stf (field (header t) "B19013_001E" r).

(** The data rows with a positive income. *)
Definition retained (stf : string -> option float) (t : json_table) : list (list cell) :=
  List.filter (fun r => PrimFloat.ltb 0 (income stf t r)) (rows t).

(** The table of the retained rows, with the six columns the script
    returns. *)
Definition cleaned (stf : string -> option float) (t : json_table) : DataFrame :=
  rowframe (retained stf t)
    [ ("tract_name", field (header t) "NAME");
      ("median_income", fun r => CFloat (income stf t r));
      ("full_fips", fun r => add_text (add_text (field (header t) "state" r)
                                                (field (header t) "county" r))
                                      (field (header t) "tract" r));
      ("tract_fips", field (header t) "tract");
      ("county_fips", field (header t) "county");
      ("state_fips", field (header t) "state") ].

(** The value the provider sends for a suppressed statistic. *)
Definition suppression_sentinel : float := (-666666666)%float.

(** The percentage of one row: both operands converted, divided, and
    scaled by 100. *)
Definition ratio_cell (str_to_float : string -> option float) (n d : cell) : cell :=
  CFloat (PrimFloat.mul
            (PrimFloat.div (to_numeric_cell str_to_float n)
                           (to_numeric_cell str_to_float d)) 100).

(** The operand does not convert to a number. *)
Definition unconvertible (str_to_float : string -> option float) (c : cell) : Prop :=
  PrimFloat.is_nan (to_numeric_cell str_to_float c) = true.

End contract.
Import contract.

(* ===================================================================== *)
(** ** census_fetch.py: the constructor *)
(* ===================================================================== *)

Module census_fetcher.

Definition KEY_REQUIRED : string :=
  "Census API key required. Get one at https://api.census.gov/data/key_signup.html"
  ++ String "010" "Set it via CENSUS_API_KEY environment variable or pass to constructor.".

(** [CensusDataFetcher.__init__(api_key=None)], given the process
    environment: the key the [Census] client is created with. *)
Definition init (api_key : option string) (environ : dict string) : result string :=
  let key := if map_visualize.truthy api_key then api_key
             else dict_get environ "CENSUS_API_KEY" in
  if negb (map_visualize.truthy key) then raise (ValueError KEY_REQUIRED)
  else ok (map_visualize.text key).

End census_fetcher.

(* ===================================================================== *)
(** ** map_visualize.py: the grid of create_multi_map *)
(* ===================================================================== *)

Module multi_map.

Inductive arithmetic_error : Type := ZeroDivisionError.

(** The head of [create_multi_map]: the rows and columns of the grid of
    subplots for the given list of columns. *)
Definition grid (columns : list string) : arithmetic_error + (nat * nat) :=
  let n_maps := length columns in
  let n_cols := Nat.min 2 n_maps in
  if Nat.eqb n_cols 0 then inl ZeroDivisionError
  else inr ((n_maps + n_cols - 1) / n_cols, n_cols).

(** The number of axes the function then holds: the single one wrapped
    in a list, or the flattened grid. *)
Definition n_axes (columns : list string) (shape : nat * nat) : nat :=
  if Nat.eqb (length columns) 1 then 1 else fst shape * snd shape.

End multi_map.

(* ===================================================================== *)
(** ** census_output/washington_income_map.py *)
(* ===================================================================== *)

Module washington_income_map.

Import island_county_income_tracts_map.

(** [s.replace(old, new)]: the occurrences of [old] in [s], leftmost
    first and not overlapping, replaced by [new]; [skip] counts the
    characters of a match still to pass over. *)
Fixpoint replace_from (skip : nat) (old new s : string) : string :=
  match s with
  | EmptyString => EmptyString
  | String c rest =>
      match skip with
      | S k => replace_from k old new rest
      | O =>
          if String.prefix old s
          then new ++ replace_from (String.length old - 1) old new rest
          else String c (replace_from 0 old new rest)
      end
  end.

Fixpoint between (new s : string) : string :=
  match s with
  | EmptyString => EmptyString
  | String c rest => String c (new ++ between new rest)
  end.

Definition str_replace (old new s : string) : string :=
  match old with
  | EmptyString => new ++ between new s
  | _ => replace_from 0 old new s
  end.

(** [col.str.replace(old, new)] on a column of text: a cell that is not
    text becomes NaN. *)
Definition series_str_replace (old new : string) (col : Series) : Series :=
  List.map (fun c => match c with
                     | CStr s => CStr (str_replace old new s)
                     | _ => CFloat nan
                     end) col.

Definition base_url : string := "https://api.census.gov/data/2022/acs/acs5/subject".

Definition params : list (string * string) :=
  [ ("get", "NAME,S1903_C03_001E");
    ("for", "county:*");
    ("in", "state:53") ].

Section Fetch.

Variable str_to_float : string -> option float.
Variable get_json : string -> list (string * string) -> result json_table.

(** [fetch_income_data()] of the county-level script. *)
Definition fetch_income_data : Py (option DataFrame) :=
  run* emit (Print "Fetching median household income data from US Census API...") in
  except_request
    (run* emit (HttpGet base_url params) in
     do* data := lift (get_json base_url params) in
     do* df := lift (
       let* df := DataFrame_of_rows (rows data) (header data) in
       let* name := getitem df "NAME" in
       let df := setitem df "county_name"
                   (series_str_replace " County, Washington" "" name) in
       let* estimate := getitem df "S1903_C03_001E" in
       let df := setitem df "median_income"
                   (float_series (to_numeric str_to_float estimate)) in
       let* county := getitem df "county" in
       let df := setitem df "county_fips" county in
       let* state := getitem df "state" in
       let df := setitem df "state_fips" state in
       let* state := getitem df "state" in
       let* county := getitem df "county" in
       let* full := series_add state county in
       let df := setitem df "full_fips" full in
       dropna df "median_income") in
     run* emit (Print ("Successfully fetched data for " ++ str_of_nat (nrows df)
                       ++ " Washington counties")) in
     do* out := lift (getitems df ["county_name"; "median_income"; "full_fips";
                                   "county_fips"; "state_fips"]) in
     ret (Some out))
    (fun e =>
       run* emit (Print ("Error fetching data: " ++ e)) in
       ret None).

End Fetch.

End washington_income_map.

(* ===================================================================== *)
(** ** Further vocabulary *)
(* ===================================================================== *)

Module behaviour.

Import island_county_income_tracts_map.

(** The cell a record contributes to the column [k] of its table. *)
Definition record_field (k : string) (r : dict cell) : cell :=
  match dict_get r k with
  | Some v => v
  | None => CFloat nan
  end.

(** Some record of the answer carries the field [k]. *)
Definition carries (data : list (dict cell)) (k : string) : Prop :=
  exists r, In r data /\ In k (dict_keys r).

(** A cell holding a code of [n] characters. *)
Definition code_of_width (n : nat) (c : cell) : Prop :=
  exists s, c = CStr s /\ String.length s = n.

(** An answer of the statistical API to the county-level script. *)
Definition county_answer (t : json_table) : Prop :=
  NoDup (header t)
  /\ (In "NAME" (header t) /\ In "S1903_C03_001E" (header t) /\ In "state" (header t)
      /\ In "county" (header t))
  /\ Forall (fun r => length r = length (header t)) (rows t)
  /\ Forall (Forall (fun c => fips_cell c = true)) (rows t).

Definition county_income (stf : string -> option float) (t : json_table) (r : list cell)
  : float :=
  to_numeric_cell stf (field (header t) "S1903_C03_001E" r).

(** The data rows whose income converts to a number. *)
Definition with_income (stf : string -> option float) (t : json_table) : list (list cell) :=
  List.filter (fun r => negb (PrimFloat.is_nan (county_income stf t r))) (rows t).

Definition county_name (c : cell) : cell :=
  match c with
  | CStr s => CStr (washington_income_map.str_replace " County, Washington" "" s)
  | _ => CFloat nan
  end.

(** The table of those rows, with the five columns the script returns. *)
Definition cleaned_counties (stf : string -> option float) (t : json_table) : DataFrame :=
  rowframe (with_income stf t)
    [ ("county_name", fun r => county_name (field (header t) "NAME" r));
      ("median_income", fun r => CFloat (county_income stf t r));
      ("full_fips", fun r => add_text (field (header t) "state" r)
                                      (field (header t) "county" r));
      ("county_fips", field (header t) "county");
      ("state_fips", field (header t) "state") ].

End behaviour.
Import behaviour.

Module more_samples.



(** An answer of the API for three counties, one of them suppressed. *)
Definition county_rows : island_county_income_tracts_map.json_table :=
  island_county_income_tracts_map.Json
    ["NAME"; "S1903_C03_001E"; "state"; "county"]
    [ [CStr "King County, Washington"; CStr "106326"; CStr "53"; CStr "033"];
      [CStr "Garfield County, Washington"; CStr "-666666666"; CStr "53"; CStr "023"];
      [CStr "Ferry County, Washington"; CNone; CStr "53"; CStr "019"] ].

(** An answer without the income column. *)
Definition names_only : island_county_income_tracts_map.json_table :=
  island_county_income_tracts_map.Json
    ["NAME"; "state"; "county"; "tract"]
    [ [CStr "Census Tract 9701"; CStr "53"; CStr "029"; CStr "970100"] ].

(** The rows the client returns for two tracts, the second without its
    county. *)
Definition tract_records : list (dict cell) :=
  [ [ ("NAME", CStr "Census Tract 9701"); ("state", CStr "53"); ("county", CStr "029");
      ("tract", CStr "970100") ];
    [ ("NAME", CStr "Census Tract 9702"); ("state", CStr "53"); ("county", CNone);
      ("tract", CStr "970200") ] ].

End more_samples.

(* ===================================================================== *)
(** * Properties *)
(* ===================================================================== *)

(** ** Text *)

Lemma append_cons (ch : ascii) (a b : string) : String ch a ++ b = String ch (a ++ b).
Proof. reflexivity. Qed.

Lemma append_assoc (a b c : string) : (a ++ b) ++ c = a ++ (b ++ c).
Proof.
  induction a as [|ch a IH]; [reflexivity|].
  now rewrite !append_cons, IH.
Qed.

Lemma append_empty_r (a : string) : a ++ "" = a.
Proof.
  induction a as [|ch a IH]; [reflexivity|].
  now rewrite append_cons, IH.
Qed.

Lemma mentions_prefixed (pre msg name : string) :
  mentions msg name -> mentions (pre ++ msg) name.
Proof.
  intros (a & b & ->). exists (pre ++ a), b. now rewrite append_assoc.
Qed.

Lemma join_mentions (sep : string) (parts : list string) (name : string) :
  In name parts -> mentions (join sep parts) name.
Proof.
  induction parts as [|p rest IH]; intros Hin; [destruct Hin|].
  destruct rest as [|q rest].
  - destruct Hin as [->|[]]. exists "", "". cbn [join].
    change ("" ++ name ++ "") with (name ++ ""). now rewrite append_empty_r.
  - destruct Hin as [->|Hin].
    + exists "", (sep ++ join sep (q :: rest)). reflexivity.
    + change (join sep (p :: q :: rest)) with (p ++ sep ++ join sep (q :: rest)).
      rewrite <- append_assoc. apply mentions_prefixed, IH, Hin.
Qed.

Lemma dict_get_contains {V} (d : dict V) (k : string) :
  dict_contains d k = true -> exists v, dict_get d k = Some v.
Proof.
  unfold dict_contains, dict_keys.
  induction d as [|[k' v'] rest IH]; simpl; [discriminate|].
  destruct (String.eqb k k'); simpl; [eauto | exact IH].
Qed.

(** ** The variable catalog *)

Import census_fetch.

(** C6. A category absent from the catalog makes
    [get_variables_for_category] fail with the error whose message names
    the offending category and lists every category of the catalog; a
    category of the catalog gives its (metric name, provider code) pairs
    without raising. *)
Theorem get_variables_for_category_contract (category : string) :
  (dict_contains VARIABLES category = false ->
     exists msg,
       get_variables_for_category category = raise (ValueError msg)
       /\ msg = "Unknown category '" ++ category
                ++ "'. Available: population, age, race, education, income, housing, employment"
       /\ forall name, In name (dict_keys VARIABLES) -> mentions msg name)
  /\ (dict_contains VARIABLES category = true ->
     exists entries,
       dict_get VARIABLES category = Some entries
       /\ get_variables_for_category category = ok entries).
Proof.
  split; intros Hc.
  - unfold get_variables_for_category. rewrite Hc. simpl negb. cbv iota.
    eexists. split; [reflexivity|]. split; [reflexivity|].
    intros name Hin.
    apply mentions_prefixed, mentions_prefixed, mentions_prefixed.
    now apply join_mentions.
  - destruct (dict_get_contains _ _ Hc) as [entries He].
    exists entries. split; [assumption|].
    unfold get_variables_for_category. now rewrite Hc, He.
Qed.

Lemma get_variables_for_category_witness :
  (exists msg,
     get_variables_for_category "bogus" = raise (ValueError msg)
     /\ msg = "Unknown category 'bogus'. Available: population, age, race, education, income, housing, employment"
     /\ forall name, In name (dict_keys VARIABLES) -> mentions msg name)
  /\ (exists entries,
     dict_get VARIABLES "income" = Some entries
     /\ get_variables_for_category "income" = ok entries).
Proof.
  split.
  - apply (proj1 (get_variables_for_category_contract "bogus")). reflexivity.
  - apply (proj2 (get_variables_for_category_contract "income")). reflexivity.
Defined.

(** ** Area conversion *)

Import create_state_density_map.

(** C8. The area step divides each planar area in square meters by the
    constant 2589988.110336, and an area of 2589988.110336 square meters
    comes out as exactly 1.0 square mile. *)
Theorem area_sq_mi_one_square_mile :
  (forall area : list float,
     area_sq_mi area = List.map (fun a => PrimFloat.div a 2589988.110336%float) area)
  /\ area_sq_mi [2589988.110336%float] = [1%float].
Proof. split; [reflexivity | vm_compute; reflexivity]. Qed.

(** ** Column composition *)

Lemma series_add_raises_TypeError (a b : Series) (e : exn) :
  series_add a b = raise e -> exists msg, e = TypeError msg.
Proof.
  revert b. induction a as [|x a IH]; intros [|y b]; simpl; try discriminate.
  unfold bind.
  destruct (cell_add x y) as [e'|z] eqn:Hxy.
  - intros [= <-]. unfold cell_add in Hxy.
    destruct (isna x || isna y); [discriminate|].
    destruct x, y; try discriminate; injection Hxy as <-; eauto.
  - destruct (series_add a b) as [e'|rest] eqn:Hab; [|discriminate].
    intros [= <-]. eapply IH, Hab.
Qed.

Lemma getitem_raises_KeyError (df : DataFrame) (label : string) (e : exn) :
  getitem df label = raise e -> e = KeyError label.
Proof.
  unfold getitem. destruct (dict_get (columns df) label); [discriminate|].
  now intros [= <-].
Qed.

(** ** Loading geometries *)

Import map_visualize.

Ltac py_unfold := unfold pbind, lift, emit, ret, bind, ok, raise in *.

(** Closes a goal saying that the exception at hand is not a [ValueError]. *)
Ltac not_value_error :=
  intros; intros Hbad; injection Hbad as Hbad; subst;
  match goal with
  | H : getitem _ _ = inl (ValueError _) |- _ =>
      apply getitem_raises_KeyError in H; discriminate
  | H : series_add _ _ = inl (ValueError _) |- _ =>
      apply series_add_raises_TypeError in H as [? ?]; discriminate
  | _ => congruence
  end.

Ltac loaded :=
  cbn [fst snd trace]; rewrite <- ?app_assoc;
  split; [reflexivity | split; [intros; congruence | try not_value_error]].

(** C7. [load_geometries] fails with the missing-parent error when the
    level is ['tract'] and no state filter is given, and with the
    unknown-level error for every level other than ['state'], ['county']
    and ['tract']; in both cases nothing has been printed or requested
    when it fails.  For a supported level (with a state filter when the
    level is ['tract']) the boundary file is requested, and neither of the
    two errors is raised. *)
Theorem load_geometries_misuse_detected_first
  (read_file : string -> result DataFrame)
  (level : string) (state : option string) (year : Z) (w : world) :
  (level = "tract" -> truthy state = false ->
     load_geometries read_file level state year w
     = (raise (ValueError "State FIPS required for tract-level geometries"), w))
  /\ (level <> "state" -> level <> "county" -> level <> "tract" ->
     load_geometries read_file level state year w
     = (raise (ValueError ("Unknown level: " ++ level)), w))
  /\ (level = "state" \/ level = "county" \/ (level = "tract" /\ truthy state = true) ->
     exists url rest,
       trace (snd (load_geometries read_file level state year w))
       = (trace w
          ++ Print ("Loading " ++ level ++ "-level geometries from Census TIGER/Line...")
             :: HttpGet url [] :: rest)%list
       /\ (forall e, read_file url = raise e ->
             fst (load_geometries read_file level state year w) = raise e)
       /\ (forall gdf, read_file url = ok gdf ->
             forall msg, fst (load_geometries read_file level state year w)
                         <> raise (ValueError msg))).
Proof.
  split; [|split].
  - intros -> Hs. unfold load_geometries. py_unfold.
    change (String.eqb "tract" "state") with false.
    change (String.eqb "tract" "county") with false.
    change (String.eqb "tract" "tract") with true.
    cbv iota. now rewrite Hs.
  - intros H1 H2 H3. unfold load_geometries. py_unfold.
    apply String.eqb_neq in H1, H2, H3. now rewrite H1, H2, H3.
  - intros Hv. unfold load_geometries. py_unfold.
    destruct Hv as [->|[->|[-> Hs]]].
    + change (String.eqb "state" "state") with true. cbv iota. cbn [heap trace].
      eexists. destruct (read_file _) as [e|gdf] eqn:Hr; [exists []; loaded|].
      destruct (getitem gdf "STATEFP") as [e|col] eqn:Hg; [exists []; loaded|].
      eexists; loaded. discriminate.
    + change (String.eqb "county" "state") with false.
      change (String.eqb "county" "county") with true. cbv iota. cbn [heap trace].
      eexists. destruct (read_file _) as [e|gdf] eqn:Hr; [exists []; loaded|].
      destruct (getitem gdf "STATEFP") as [e|c1] eqn:Hg1; [exists []; loaded|].
      destruct (getitem gdf "COUNTYFP") as [e|c2] eqn:Hg2; [exists []; loaded|].
      destruct (series_add c1 c2) as [e|g] eqn:Ha; [exists []; loaded|].
      eexists; loaded. discriminate.
    + change (String.eqb "tract" "state") with false.
      change (String.eqb "tract" "county") with false.
      change (String.eqb "tract" "tract") with true. cbv iota. rewrite Hs.
      cbn [negb heap trace].
      eexists. destruct (read_file _) as [e|gdf] eqn:Hr; [exists []; loaded|].
      destruct (getitem gdf "STATEFP") as [e|c1] eqn:Hg1; [exists []; loaded|].
      destruct (getitem gdf "COUNTYFP") as [e|c2] eqn:Hg2; [exists []; loaded|].
      destruct (series_add c1 c2) as [e|g12] eqn:Ha; [exists []; loaded|].
      destruct (getitem gdf "TRACTCE") as [e|c3] eqn:Hg3; [exists []; loaded|].
      destruct (series_add g12 c3) as [e|g] eqn:Hb; [exists []; loaded|].
      eexists; loaded. discriminate.
Qed.

(** ** Tables *)

Lemma dict_get_assign_eq {V} (d : dict V) (k : string) (v : V) :
  dict_get (assign d k v) k = Some v.
Proof.
  induction d as [|[k' v'] rest IH]; simpl.
  - now rewrite String.eqb_refl.
  - destruct (String.eqb k k') eqn:Hk; simpl; rewrite Hk; [reflexivity | exact IH].
Qed.

Lemma dict_get_assign_ne {V} (d : dict V) (k k' : string) (v : V) :
  k <> k' -> dict_get (assign d k' v) k = dict_get d k.
Proof.
  intros Hne. induction d as [|[k0 v0] rest IH]; simpl.
  - apply String.eqb_neq in Hne. now rewrite Hne.
  - destruct (String.eqb k' k0) eqn:Hk; simpl.
    + apply String.eqb_eq in Hk. subst k0.
      apply String.eqb_neq in Hne. now rewrite Hne.
    + now rewrite IH.
Qed.

Lemma getitem_setitem_eq (df : DataFrame) (label : string) (col : Series) :
  getitem (setitem df label col) label = ok col.
Proof. unfold getitem, setitem. simpl. now rewrite dict_get_assign_eq. Qed.

Lemma getitem_setitem_ne (df : DataFrame) (label other : string) (col : Series) :
  other <> label -> getitem (setitem df label col) other = getitem df other.
Proof.
  intros Hne. unfold getitem, setitem. simpl. now rewrite dict_get_assign_ne.
Qed.

Lemma series_add_codes (p q : fips -> string) (units : list fips) :
  series_add (codes p units) (codes q units) = ok (codes (fun u => p u ++ q u) units).
Proof.
  induction units as [|u units IH]; [reflexivity|].
  unfold codes in *. simpl. rewrite IH. reflexivity.
Qed.

(** ** GEOID composition on the two ingestion paths *)

(** C1. For each level, when the response fields of the fetched table and
    the attribute fields of the boundary table carry the same component
    codes, the fetch path and the geometry-loading path both succeed and
    attach the same GEOID column: the text [buildGeoid] gives for each
    unit. *)
Theorem geoid_paths_agree
  (l : level) (units : list fips) (data : list (dict cell)) (shp : DataFrame)
  (variables : list string) (year : Z) (state_fips county_fips : string)
  (state : option string) (w1 w2 : world) :
  same_components l units (DataFrame_of_records data) shp ->
  (l = Tract -> truthy state = true) ->
  exists df gdf w1' w2',
    fetch (fun _ => ok data) l variables year state_fips county_fips w1 = (ok df, w1')
    /\ load_geometries (fun _ => ok shp) (level_name l) state year w2 = (ok gdf, w2')
    /\ getitem df "GEOID" = ok (codes (buildGeoid l) units)
    /\ getitem gdf "GEOID" = ok (codes (buildGeoid l) units).
Proof.
  intros ((Hs1 & Hs2) & Hc & Ht) Hstate.
  destruct l; cbn [fetch level_name buildGeoid].
  - unfold census_fetch.fetch_state_data, census_fetch.query, load_geometries.
    py_unfold. rewrite Hs1.
    change (String.eqb "state" "state") with true. cbv iota. rewrite Hs2.
    do 4 eexists. repeat split; apply getitem_setitem_eq.
  - destruct Hc as [Hc1 Hc2]; [discriminate|].
    unfold census_fetch.fetch_county_data, census_fetch.query, load_geometries.
    py_unfold. rewrite Hs1, Hc1. cbv beta iota. rewrite series_add_codes.
    change (String.eqb "county" "state") with false.
    change (String.eqb "county" "county") with true. cbv iota.
    rewrite Hs2, Hc2. cbv beta iota. rewrite series_add_codes.
    do 4 eexists. repeat split; apply getitem_setitem_eq.
  - destruct Hc as [Hc1 Hc2]; [discriminate|].
    destruct Ht as [Ht1 Ht2]; [reflexivity|].
    unfold census_fetch.fetch_tract_data, census_fetch.query, load_geometries.
    py_unfold. rewrite Hs1, Hc1. cbv beta iota.
    rewrite series_add_codes. unfold ok. rewrite Ht1. cbv beta iota.
    rewrite series_add_codes.
    change (String.eqb "tract" "state") with false.
    change (String.eqb "tract" "county") with false.
    change (String.eqb "tract" "tract") with true. cbv iota.
    rewrite (Hstate eq_refl). cbn [negb].
    rewrite Hs2, Hc2. cbv beta iota.
    rewrite series_add_codes. unfold ok. rewrite Ht2. cbv beta iota.
    rewrite series_add_codes.
    do 4 eexists. repeat split.
    + rewrite getitem_setitem_eq. unfold codes. f_equal.
      apply map_ext. intros u. now rewrite append_assoc.
    + rewrite getitem_setitem_eq. unfold codes. f_equal.
      apply map_ext. intros u. now rewrite append_assoc.
Qed.

(** ** Binary64 facts *)

Lemma Prim2SF_nan (x : float) : PrimFloat.is_nan x = true <-> Prim2SF x = S754_nan.
Proof.
  split.
  - intros H. unfold Prim2SF. now rewrite H.
  - intros H. unfold PrimFloat.is_nan. rewrite FloatAxioms.eqb_spec, H. reflexivity.
Qed.

Lemma is_nan_div_l (x y : float) :
  PrimFloat.is_nan x = true -> PrimFloat.is_nan (x / y) = true.
Proof. rewrite !Prim2SF_nan. intros H. rewrite div_spec, H. reflexivity. Qed.

Lemma is_nan_div_r (x y : float) :
  PrimFloat.is_nan y = true -> PrimFloat.is_nan (x / y) = true.
Proof.
  rewrite !Prim2SF_nan. intros H. rewrite div_spec, H. now destruct (Prim2SF x).
Qed.

Lemma is_nan_mul_l (x y : float) :
  PrimFloat.is_nan x = true -> PrimFloat.is_nan (x * y) = true.
Proof. rewrite !Prim2SF_nan. intros H. rewrite mul_spec, H. reflexivity. Qed.

Lemma gt_zero_not_nan (x : float) :
  PrimFloat.ltb 0 x = true -> PrimFloat.is_nan x = false.
Proof.
  intros H. destruct (PrimFloat.is_nan x) eqn:Hn; [|reflexivity].
  apply Prim2SF_nan in Hn. rewrite ltb_spec, Hn in H. discriminate.
Qed.

Lemma le_zero_not_gt (x : float) :
  PrimFloat.leb x 0 = true -> PrimFloat.ltb 0 x = false.
Proof.
  rewrite leb_spec, ltb_spec.
  change (Prim2SF 0) with (S754_zero false).
  destruct (Prim2SF x) as [s|s| |s m e]; try reflexivity; try discriminate;
    destruct s; try reflexivity; discriminate.
Qed.

Lemma div_zero_infinite (x y : float) :
  PrimFloat.is_nan x = false -> PrimFloat.is_zero x = false -> PrimFloat.is_zero y = true ->
  PrimFloat.is_infinity (x / y * 100) = true.
Proof.
  intros Hn Hz Hy.
  unfold PrimFloat.is_infinity. rewrite FloatAxioms.eqb_spec, abs_spec, mul_spec, div_spec.
  unfold PrimFloat.is_zero in *. rewrite FloatAxioms.eqb_spec in Hz, Hy.
  change (Prim2SF zero) with (S754_zero false) in *.
  assert (Hx : Prim2SF x <> S754_nan).
  { intros H. apply Prim2SF_nan in H. congruence. }
  change (Prim2SF infinity) with (S754_infinity false).
  change (Prim2SF 100) with (S754_finite false 7036874417766400 (-46)).
  destruct (Prim2SF x) as [s|s| |s m e], (Prim2SF y) as [t|t| |t n e'];
    try (exfalso; apply Hx; reflexivity);
    try (destruct s; discriminate Hz); try (destruct t; discriminate Hy);
    try discriminate Hy; destruct s, t; reflexivity.
Qed.

Lemma infinite_not_nan (x : float) :
  PrimFloat.is_infinity x = true -> PrimFloat.is_nan x = false.
Proof.
  intros H. destruct (PrimFloat.is_nan x) eqn:Hn; [|reflexivity].
  apply Prim2SF_nan in Hn. unfold PrimFloat.is_infinity in H.
  rewrite FloatAxioms.eqb_spec, abs_spec, Hn in H. discriminate.
Qed.

(** ** The percentage calculator *)

Lemma labels_setitem (df : DataFrame) (label : string) (col : Series) :
  labels (setitem df label col)
  = if has_label (labels df) label then labels df else (labels df ++ [label])%list.
Proof.
  unfold labels, setitem, has_label. cbn [columns].
  induction (columns df) as [|[k v] rest IH]; [reflexivity|].
  cbn [assign List.map fst existsb].
  destruct (String.eqb label k); [reflexivity|].
  cbn [List.map fst orb]. rewrite IH.
  now destruct (existsb (String.eqb label) (List.map fst rest)).
Qed.

Lemma series_ratio (stf : string -> option float) (ns ds : Series) :
  float_series (series_mul (series_div (to_numeric stf ns) (to_numeric stf ds)) 100)
  = zip_with (ratio_cell stf) ns ds.
Proof.
  unfold float_series, series_mul, series_div, to_numeric.
  revert ds. induction ns as [|n ns IH]; intros [|d ds]; try reflexivity.
  cbn [List.map zip_with]. now rewrite <- IH.
Qed.

Lemma calculate_percentage_run (stf : string -> option float) (w : world) (df : nat)
  (frame : DataFrame) (num den res : string) (ns ds : Series) :
  heap w !! df = Some frame ->
  getitem frame num = ok ns ->
  getitem frame den = ok ds ->
  calculate_percentage stf df num den res w
  = (ok df, World (<[df := setitem frame res (zip_with (ratio_cell stf) ns ds)]> (heap w))
                  (trace w)).
Proof.
  intros Hh Hn Hd. unfold calculate_percentage, deref, store. py_unfold.
  rewrite Hh, Hn, Hd. cbn [heap trace]. now rewrite series_ratio.
Qed.

(** C9. On a well-formed table [calculate_percentage] changes the table it is given only by the
    result column: the table keeps its rows, every column other than the
    result column keeps its place and its values, no column is removed,
    and the only label that may be new is the result column's; nothing
    else in the store changes, nothing is printed or requested, and the
    reference returned is the one received.  When an operand column is
    absent the call raises and changes nothing. *)
Theorem calculate_percentage_frame
  (stf : string -> option float) (w : world) (df : nat) (frame : DataFrame)
  (num den res : string) :
  heap w !! df = Some frame ->
  well_formed frame ->
  (forall ns ds,
     getitem frame num = ok ns -> getitem frame den = ok ds ->
     exists frame',
       calculate_percentage stf df num den res w
       = (ok df, World (<[df := frame']> (heap w)) (trace w))
       /\ nrows frame' = nrows frame
       /\ labels frame'
          = (if has_label (labels frame) res then labels frame
             else (labels frame ++ [res])%list)
       /\ (forall other, other <> res -> getitem frame' other = getitem frame other)
       /\ (exists col, getitem frame' res = ok col)
       /\ (forall r, r <> df -> <[df := frame']> (heap w) !! r = heap w !! r))
  /\ (forall e,
       getitem frame num = raise e
       \/ (exists ns, getitem frame num = ok ns /\ getitem frame den = raise e) ->
       calculate_percentage stf df num den res w = (raise e, w)).
Proof.
  intros Hh _. split.
  - intros ns ds Hn Hd. eexists.
    split; [exact (calculate_percentage_run stf w df frame num den res ns ds Hh Hn Hd)|].
    split; [reflexivity|]. split; [apply labels_setitem|].
    split; [intros other Hne; now apply getitem_setitem_ne|].
    split; [eexists; apply getitem_setitem_eq|].
    intros r Hr. rewrite lookup_insert_ne; [reflexivity | congruence].
  - intros e [He|(ns & Hn & He)];
      unfold calculate_percentage, deref; py_unfold; rewrite Hh.
    + now rewrite He.
    + now rewrite Hn, He.
Qed.

Lemma calculate_percentage_frame_witness :
  exists frame',
    calculate_percentage samples.integer_text_to_float 0 "num" "den" "pct" samples.ratio_world
    = (ok 0%nat, World (<[0%nat := frame']> (heap samples.ratio_world)) [])
    /\ nrows frame' = 3%nat
    /\ labels frame' = ["num"; "den"; "NAME"; "pct"]
    /\ (forall other, other <> "pct" ->
          getitem frame' other = getitem samples.ratio_table other)
    /\ (exists col, getitem frame' "pct" = ok col)
    /\ (forall r, r <> 0%nat ->
          <[0%nat := frame']> (heap samples.ratio_world) !! r = heap samples.ratio_world !! r).
Proof.
  refine (proj1 (calculate_percentage_frame samples.integer_text_to_float
                   samples.ratio_world 0 samples.ratio_table "num" "den" "pct" _ _)
                _ _ _ _); try reflexivity.
  split; [apply (bool_decide_unpack _); vm_compute; exact I | repeat constructor].
Defined.

(** C2, counterexample.  On the row with numerator 50 and denominator 0
    the result is positive infinity, which is not a missing value. *)
Lemma calculate_percentage_zero_denominator_is_infinite :
  fst (calculate_percentage samples.integer_text_to_float 0 "num" "den" "pct"
         samples.ratio_world) = ok 0%nat
  /\ (exists frame' last,
        heap (snd (calculate_percentage samples.integer_text_to_float 0 "num" "den" "pct"
                     samples.ratio_world)) !! 0%nat = Some frame'
        /\ getitem frame' "pct" = ok [CFloat 25; CFloat infinity; last])
  /\ isna (CFloat infinity) = false.
Proof.
  rewrite (calculate_percentage_run samples.integer_text_to_float samples.ratio_world 0
             samples.ratio_table "num" "den" "pct"
             [CInt 50; CInt 50; CStr "N/A"] [CInt 200; CInt 0; CInt 200]
             eq_refl eq_refl eq_refl).
  split; [reflexivity|]. split; [|reflexivity].
  do 2 eexists. cbn [snd heap]. rewrite lookup_insert_eq.
  split; [reflexivity|]. rewrite getitem_setitem_eq. reflexivity.
Qed.

(** C2, as amended.  [calculate_percentage] stores, for every row, the
    binary64 value of numerator / denominator * 100 of the converted
    operands.  An operand that does not convert makes the result missing;
    a zero denominator under a non-zero number makes it infinite, not
    missing.  So 50 over 200 is 25.0, 50 over 0 is positive infinity, and
    a text that is no number over 200 is missing. *)
Theorem calculate_percentage_rows
  (stf : string -> option float) (w : world) (df : nat) (frame : DataFrame)
  (num den res : string) (ns ds : Series) :
  heap w !! df = Some frame ->
  well_formed frame ->
  getitem frame num = ok ns ->
  getitem frame den = ok ds ->
  calculate_percentage stf df num den res w
  = (ok df, World (<[df := setitem frame res (zip_with (ratio_cell stf) ns ds)]> (heap w))
                  (trace w))
  /\ (forall n d, unconvertible stf n \/ unconvertible stf d ->
        isna (ratio_cell stf n d) = true)
  /\ (forall n d,
        PrimFloat.is_nan (to_numeric_cell stf n) = false ->
        PrimFloat.is_zero (to_numeric_cell stf n) = false ->
        PrimFloat.is_zero (to_numeric_cell stf d) = true ->
        exists r, ratio_cell stf n d = CFloat r
                  /\ PrimFloat.is_infinity r = true
                  /\ isna (CFloat r) = false)
  /\ ratio_cell stf (CInt 50) (CInt 200) = CFloat 25
  /\ ratio_cell stf (CInt 50) (CInt 0) = CFloat infinity
  /\ (forall s, stf s = None ->
        unconvertible stf (CStr s) /\ isna (ratio_cell stf (CStr s) (CInt 200)) = true).
Proof.
  intros Hh _ Hn Hd.
  assert (Hmissing : forall n d, unconvertible stf n \/ unconvertible stf d ->
                                 isna (ratio_cell stf n d) = true).
  { intros n d [H|H]; unfold unconvertible in H; cbn [ratio_cell isna];
      apply is_nan_mul_l; [now apply is_nan_div_l | now apply is_nan_div_r]. }
  split; [now apply calculate_percentage_run|].
  split; [exact Hmissing|].
  split.
  { intros n d Hnan Hz Hzero. eexists. split; [reflexivity|].
    pose proof (div_zero_infinite _ _ Hnan Hz Hzero) as Hinf.
    split; [exact Hinf | exact (infinite_not_nan _ Hinf)]. }
  split; [reflexivity|]. split; [reflexivity|].
  intros s Hs.
  assert (Hu : unconvertible stf (CStr s)).
  { unfold unconvertible. cbn [to_numeric_cell]. now rewrite Hs. }
  split; [exact Hu | apply Hmissing; now left].
Qed.

Lemma calculate_percentage_rows_witness :
  calculate_percentage samples.integer_text_to_float 0 "num" "den" "pct" samples.ratio_world
  = (ok 0%nat,
     World (<[0%nat := setitem samples.ratio_table "pct"
                         (zip_with (ratio_cell samples.integer_text_to_float)
                                   [CInt 50; CInt 50; CStr "N/A"]
                                   [CInt 200; CInt 0; CInt 200])]>
              (heap samples.ratio_world)) [])
  /\ samples.integer_text_to_float "N/A" = None.
Proof.
  split; [|reflexivity].
  refine (proj1 (calculate_percentage_rows samples.integer_text_to_float
                   samples.ratio_world 0 samples.ratio_table "num" "den" "pct"
                   [CInt 50; CInt 50; CStr "N/A"] [CInt 200; CInt 0; CInt 200]
                   eq_refl _ eq_refl eq_refl)).
  split; [apply (bool_decide_unpack _); vm_compute; exact I | repeat constructor].
Defined.

(** ** The left join *)

Lemma positions_count (g : string) (keys : list string) (j : nat) :
  length (positions (key_match (CStr g)) (List.map CStr keys) j) = count_key g keys.
Proof.
  unfold count_key. revert j.
  induction keys as [|k keys IH]; intros j; [reflexivity|].
  cbn [List.map positions List.filter].
  change (key_match (CStr g) (CStr k)) with (String.eqb g k).
  destruct (String.eqb g k); cbn [length]; now rewrite IH.
Qed.

Lemma index_of_None (g : string) (keys : list string) :
  ~ In g keys -> index_of g keys = None.
Proof.
  induction keys as [|k keys IH]; intros Hnin; [reflexivity|].
  cbn [index_of]. destruct (String.eqb g k) eqn:Hk.
  - apply String.eqb_eq in Hk. subst. exfalso. apply Hnin. now left.
  - rewrite IH; [reflexivity|]. intros Hin. apply Hnin. now right.
Qed.

Lemma index_of_Some (g : string) (keys : list string) (j : nat) :
  index_of g keys = Some j -> nth_error keys j = Some g.
Proof.
  revert j. induction keys as [|k keys IH]; intros j; [discriminate|].
  cbn [index_of]. destruct (String.eqb g k) eqn:Hk.
  - intros [= <-]. apply String.eqb_eq in Hk. now subst.
  - destruct (index_of g keys) as [j'|]; [|discriminate].
    intros [= <-]. cbn [nth_error]. now apply IH.
Qed.

Lemma positions_unique (g : string) (keys : list string) (j : nat) :
  NoDup keys ->
  positions (key_match (CStr g)) (List.map CStr keys) j
  = match index_of g keys with
    | Some i => [(j + i)%nat]
    | None => []
    end.
Proof.
  intros Hnd. revert j.
  induction Hnd as [|k keys Hnin Hnd IH]; intros j; [reflexivity|].
  cbn [List.map positions index_of].
  change (key_match (CStr g) (CStr k)) with (String.eqb g k).
  destruct (String.eqb g k) eqn:Hk.
  - apply String.eqb_eq in Hk. subst k.
    rewrite list_elem_of_In in Hnin.
    rewrite IH, (index_of_None g keys Hnin). now rewrite Nat.add_0_r.
  - rewrite IH. destruct (index_of g keys) as [i|]; [|reflexivity].
    cbn [option_map]. now rewrite Nat.add_succ_r.
Qed.

Lemma map_fst_matches (i : nat) (js : list nat) :
  List.map fst (match js with
                | [] => [(i, @None nat)]
                | n :: l => List.map (fun j => (i, Some j)) (n :: l)
                end)
  = repeat i (Nat.max 1 (length js)).
Proof.
  assert (Hall : forall l : list nat,
             List.map fst (List.map (fun j => (i, Some j)) l) = repeat i (length l)).
  { induction l as [|x l IH]; [reflexivity|].
    cbn [List.map fst length repeat]. now rewrite IH. }
  destruct js as [|j js]; [reflexivity|].
  rewrite Hall. cbn [length]. now rewrite Nat.max_r by lia.
Qed.

Lemma indexer_rows (gkeys keys : list string) (i : nat) :
  List.map fst (left_join_indexer (List.map CStr gkeys) (List.map CStr keys) i)
  = row_copies keys i gkeys.
Proof.
  revert i. induction gkeys as [|g gkeys IH]; intros i; [reflexivity|].
  change (List.map CStr (g :: gkeys)) with (CStr g :: List.map CStr gkeys).
  cbn [left_join_indexer row_copies].
  rewrite List.map_app, IH, map_fst_matches, positions_count. reflexivity.
Qed.

Lemma indexer_unique (gkeys keys : list string) (i : nat) :
  NoDup keys ->
  left_join_indexer (List.map CStr gkeys) (List.map CStr keys) i
  = combine (seq i (length gkeys)) (List.map (fun g => index_of g keys) gkeys).
Proof.
  intros Hnd. revert i. induction gkeys as [|g gkeys IH]; intros i; [reflexivity|].
  change (List.map CStr (g :: gkeys)) with (CStr g :: List.map CStr gkeys).
  cbn [left_join_indexer length seq].
  rewrite IH, positions_unique by assumption.
  cbn [List.map combine]. destruct (index_of g keys); reflexivity.
Qed.

Lemma map_nth_seq (col : Series) :
  List.map (fun i => nth i col CNone) (seq 0 (length col)) = col.
Proof.
  induction col as [|c col IH]; [reflexivity|].
  cbn [length seq List.map nth]. f_equal.
  rewrite <- seq_shift, List.map_map. exact IH.
Qed.

Lemma take_left_rows (idx : list (nat * option nat)) (col : Series) :
  take_left idx col = List.map (fun i => nth i col CNone) (List.map fst idx).
Proof. unfold take_left. now rewrite List.map_map. Qed.

Lemma take_right_unique (gkeys keys : list string) (col : Series) (i : nat) :
  take_right (combine (seq i (length gkeys)) (List.map (fun g => index_of g keys) gkeys)) col
  = List.map (lookup_metric keys col) gkeys.
Proof.
  unfold take_right, lookup_metric. revert i.
  induction gkeys as [|g gkeys IH]; intros i; [reflexivity|].
  cbn [length seq List.map combine snd]. now rewrite IH.
Qed.

Lemma merge_data_run (geometries data : DataFrame) (on : string) (gk dk : Series) (w : world) :
  getitem geometries on = ok gk ->
  getitem data on = ok dk ->
  suffix_duplicates geometries data on = [] ->
  merge_data geometries data on w
  = (ok (Frame (length (left_join_indexer gk dk 0))
           (List.map (fun c => (left_label data on (fst c),
                                take_left (left_join_indexer gk dk 0) (snd c)))
                     (columns geometries)
            ++ List.map (fun c => (right_label geometries (fst c),
                                   take_right (left_join_indexer gk dk 0) (snd c)))
                 (without_key data on))),
     World (heap w)
           (trace w ++ [Print ("Merged data: "
                               ++ str_of_nat (length (left_join_indexer gk dk 0))
                               ++ " features")])).
Proof.
  intros Hg Hd Hs. unfold merge_data, merge_left. py_unfold. now rewrite Hg, Hd, Hs.
Qed.

Lemma dict_get_In {V} (d : dict V) (k : string) (v : V) :
  dict_get d k = Some v -> In (k, v) d.
Proof.
  induction d as [|[k' v'] rest IH]; [discriminate|].
  cbn [dict_get]. destruct (String.eqb k k') eqn:Hk.
  - intros [= ->]. apply String.eqb_eq in Hk. subst. now left.
  - intros H. right. now apply IH.
Qed.

Lemma getitem_length (df : DataFrame) (label : string) (col : Series) :
  Forall (fun c => length (snd c) = nrows df) (columns df) ->
  getitem df label = ok col -> length col = nrows df.
Proof.
  intros Hwf. unfold getitem.
  destruct (dict_get (columns df) label) as [c|] eqn:Hc; [|discriminate].
  intros [= <-]. apply dict_get_In in Hc.
  rewrite List.Forall_forall in Hwf. exact (Hwf _ Hc).
Qed.

Lemma index_of_nth_error (g : string) (keys : list string) (j : nat) :
  NoDup keys -> nth_error keys j = Some g -> index_of g keys = Some j.
Proof.
  intros Hnd. revert j.
  induction Hnd as [|k keys Hnin Hnd IH]; intros [|j]; try discriminate.
  - intros [= ->]. cbn [index_of]. now rewrite String.eqb_refl.
  - cbn [nth_error index_of]. intros Hj.
    destruct (String.eqb g k) eqn:Hk.
    + apply String.eqb_eq in Hk. subst k. exfalso. apply Hnin.
      apply list_elem_of_In. eapply nth_error_In, Hj.
    + now rewrite (IH _ Hj).
Qed.

Lemma map_fst_combine {A B} (l : list A) (l' : list B) :
  length l = length l' -> List.map fst (combine l l') = l.
Proof.
  revert l'. induction l as [|a l IH]; intros [|b l']; try discriminate; [reflexivity|].
  intros [= Hlen]. cbn [combine List.map fst]. now rewrite IH.
Qed.

Lemma unchanged_columns (cols : list (string * Series)) (n : nat) (f : string -> string) :
  Forall (fun c => length (snd c) = n) cols ->
  List.map (fun c => (f (fst c), List.map (fun i => nth i (snd c) CNone) (seq 0 n))) cols
  = List.map (fun c => (f (fst c), snd c)) cols.
Proof.
  induction 1 as [|c cols Hc Hcols IH]; [reflexivity|].
  cbn [List.map]. rewrite IH. f_equal. f_equal.
  rewrite <- Hc. apply map_nth_seq.
Qed.

(** C3. Joining a geometry table of N rows with a metric table in which
    each GEOID occurs at most once (both well-formed, with text GEOIDs and
    labels the suffixes do not make clash) gives exactly N rows: every geometry
    column comes out unchanged, so each geometry row is there once, in
    place; each metric column holds, for a geometry row, the cell of the
    metric row with the same GEOID, and a missing value where there is
    none; a metric row whose GEOID no geometry row has is joined to no
    row. *)
Theorem merge_data_keeps_every_geometry_row
  (geometries data : DataFrame) (on : string) (gkeys keys : list string) (w : world) :
  well_formed geometries ->
  well_formed data ->
  getitem geometries on = ok (List.map CStr gkeys) ->
  getitem data on = ok (List.map CStr keys) ->
  suffix_duplicates geometries data on = [] ->
  NoDup keys ->
  exists merged,
    merge_data geometries data on w
    = (ok merged,
       World (heap w)
             (trace w ++ [Print ("Merged data: " ++ str_of_nat (nrows geometries)
                                 ++ " features")]))
    /\ nrows merged = nrows geometries
    /\ columns merged
       = (List.map (fun c => (left_label data on (fst c), snd c)) (columns geometries)
          ++ List.map (fun c => (right_label geometries (fst c),
                                 List.map (lookup_metric keys (snd c)) gkeys))
               (without_key data on))%list
    /\ (forall g col, ~ In g keys -> isna (lookup_metric keys col g) = true)
    /\ (forall g j col, nth_error keys j = Some g ->
          lookup_metric keys col g = nth j col CNone)
    /\ (forall j k, nth_error keys j = Some k -> ~ In k gkeys ->
          forall g, In g gkeys -> index_of g keys <> Some j).
Proof.
  intros [_ Hwf] _ Hg Hd Hs Hnd.
  assert (Hn : length gkeys = nrows geometries).
  { rewrite <- (getitem_length _ _ _ Hwf Hg). now rewrite length_map. }
  eexists. split; [|split; [|split; [|split; [|split]]]].
  - rewrite (merge_data_run _ _ _ _ _ w Hg Hd Hs).
    rewrite indexer_unique by assumption.
    rewrite length_combine, length_seq, length_map, Nat.min_id, Hn. reflexivity.
  - reflexivity.
  - cbn [columns]. f_equal.
    + rewrite <- (unchanged_columns _ _ _ Hwf).
      apply map_ext. intros c. f_equal.
      rewrite take_left_rows, map_fst_combine; [reflexivity|].
      now rewrite length_seq, length_map.
    + apply map_ext. intros c. f_equal. rewrite <- Hn. apply take_right_unique.
  - intros g col Hnin. unfold lookup_metric. now rewrite index_of_None.
  - intros g j col Hj. unfold lookup_metric. now rewrite (index_of_nth_error _ _ _ Hnd Hj).
  - intros j k Hj Hnin g Hin Hidx. apply index_of_Some in Hidx.
    rewrite Hj in Hidx. injection Hidx as ->. contradiction.
Qed.

Lemma merge_data_keeps_every_geometry_row_witness :
  exists merged,
    merge_data samples.counties samples.income "GEOID" samples.empty_world
    = (ok merged, World ∅ [Print "Merged data: 2 features"])
    /\ nrows merged = 2%nat
    /\ getitem merged "geometry" = getitem samples.counties "geometry"
    /\ getitem merged "median_income" = ok [CFloat 75000; CFloat nan].
Proof.
  destruct (merge_data_keeps_every_geometry_row
              samples.counties samples.income "GEOID" ["53029"; "53033"] ["53029"]
              samples.empty_world)
    as (merged & Hrun & Hrows & Hcols & _); try reflexivity.
  - split; [apply (bool_decide_unpack _); vm_compute; exact I | repeat constructor].
  - split; [apply (bool_decide_unpack _); vm_compute; exact I | repeat constructor].
  - apply (bool_decide_unpack _). vm_compute. exact I.
  - exists merged. split; [exact Hrun|]. split; [exact Hrows|].
    unfold getitem. rewrite Hcols. split; reflexivity.
Defined.

Lemma row_copies_ge (keys gkeys : list string) (i x : nat) :
  In x (row_copies keys i gkeys) -> i <= x.
Proof.
  revert i. induction gkeys as [|g gkeys IH]; intros i; [intros []|].
  cbn [row_copies]. rewrite in_app_iff. intros [Hin|Hin].
  - apply repeat_spec in Hin. lia.
  - apply IH in Hin. lia.
Qed.

Lemma row_copies_count (keys gkeys : list string) (i0 i : nat) (g : string) :
  nth_error gkeys i = Some g ->
  count_occ Nat.eq_dec (row_copies keys i0 gkeys) (i0 + i) = Nat.max 1 (count_key g keys).
Proof.
  revert i0 i. induction gkeys as [|g0 gkeys IH]; intros i0 [|i]; try discriminate;
    cbn [nth_error row_copies]; rewrite count_occ_app.
  - intros [= ->]. rewrite Nat.add_0_r, count_occ_repeat_eq by reflexivity.
    rewrite (proj1 (count_occ_not_In Nat.eq_dec _ _)); [lia|].
    intros Hin. apply row_copies_ge in Hin. lia.
  - intros Hi. rewrite count_occ_repeat_neq by lia.
    rewrite Nat.add_succ_r, <- Nat.add_succ_l. now apply IH.
Qed.

Lemma row_copies_once (keys gkeys : list string) (i : nat) :
  (forall g, In g gkeys -> count_key g keys <= 1) ->
  row_copies keys i gkeys = seq i (length gkeys).
Proof.
  revert i. induction gkeys as [|g gkeys IH]; intros i Hall; [reflexivity|].
  cbn [row_copies length seq]. rewrite IH by (intros; apply Hall; now right).
  assert (Hg : count_key g keys <= 1) by (apply Hall; now left).
  now replace (Nat.max 1 (count_key g keys)) with 1%nat by lia.
Qed.

(** C4, counterexample.  One county listed twice in the metric table
    comes out of the join twice: two geometry rows give three rows. *)
Lemma merge_data_duplicates_geometry_rows :
  exists merged,
    merge_data samples.counties samples.income_twice "GEOID" samples.empty_world
    = (ok merged, World ∅ [Print "Merged data: 3 features"])
    /\ nrows merged = 3%nat
    /\ nrows samples.counties = 2%nat
    /\ getitem merged "GEOID" = ok [CStr "53029"; CStr "53029"; CStr "53033"]
    /\ getitem merged "geometry"
       = ok [CGeom "POLYGON ((0 0, 1 0, 1 1, 0 0))";
             CGeom "POLYGON ((0 0, 1 0, 1 1, 0 0))";
             CGeom "POLYGON ((2 2, 3 2, 3 3, 2 2))"].
Proof. eexists. repeat split; reflexivity. Qed.

(** C4, as amended.  On well-formed tables with text GEOIDs (and labels
    the suffixes do not make clash) the join drops no geometry row: geometry row [i]
    comes out once for each metric row carrying its GEOID, and once when
    no metric row carries it; each geometry column of the output lists the
    rows in that order.  When no GEOID of the geometry table occurs twice
    in the metric table, each geometry row comes out exactly once;
    metric GEOIDs absent from the geometry table do not matter. *)
Theorem merge_data_row_multiplicity
  (geometries data : DataFrame) (on : string) (gkeys keys : list string) (w : world) :
  well_formed geometries ->
  well_formed data ->
  getitem geometries on = ok (List.map CStr gkeys) ->
  getitem data on = ok (List.map CStr keys) ->
  suffix_duplicates geometries data on = [] ->
  exists merged,
    merge_data geometries data on w
    = (ok merged,
       World (heap w)
             (trace w ++ [Print ("Merged data: " ++ str_of_nat (nrows merged)
                                 ++ " features")]))
    /\ nrows merged = length (row_copies keys 0 gkeys)
    /\ (forall label col, In (label, col) (columns geometries) ->
          In (left_label data on label,
              List.map (fun i => nth i col CNone) (row_copies keys 0 gkeys))
             (columns merged))
    /\ (forall i g, nth_error gkeys i = Some g ->
          count_occ Nat.eq_dec (row_copies keys 0 gkeys) i
          = Nat.max 1 (count_key g keys))
    /\ ((forall g, In g gkeys -> count_key g keys <= 1) ->
          row_copies keys 0 gkeys = seq 0 (length gkeys)).
Proof.
  intros _ _ Hg Hd Hs. rewrite (merge_data_run _ _ _ _ _ w Hg Hd Hs).
  match goal with |- exists m, (ok ?F, _) = _ /\ _ => exists F end.
  split; [reflexivity|].
  cbn [nrows columns]. split; [|split; [|split]].
  - now rewrite <- indexer_rows, length_map.
  - intros label col Hin. apply in_or_app. left.
    rewrite <- indexer_rows, <- take_left_rows.
    apply (in_map (fun c => (left_label data on (fst c),
                             take_left (left_join_indexer (List.map CStr gkeys)
                                          (List.map CStr keys) 0) (snd c)))
                  _ _ Hin).
  - intros i g Hi. exact (row_copies_count keys gkeys 0 i g Hi).
  - apply row_copies_once.
Qed.

Lemma merge_data_row_multiplicity_witness :
  exists merged,
    merge_data samples.counties samples.income_twice "GEOID" samples.empty_world
    = (ok merged, World ∅ [Print ("Merged data: " ++ str_of_nat (nrows merged) ++ " features")])
    /\ nrows merged = 3%nat.
Proof.
  destruct (merge_data_row_multiplicity
              samples.counties samples.income_twice "GEOID"
              ["53029"; "53033"] ["53029"; "53029"] samples.empty_world)
    as (merged & Hrun & Hrows & _); try reflexivity.
  - split; [apply (bool_decide_unpack _); vm_compute; exact I | repeat constructor].
  - split; [apply (bool_decide_unpack _); vm_compute; exact I | repeat constructor].
  - exists merged. split; [exact Hrun | exact Hrows].
Defined.

(** ** Tables given row by row *)

Section RowFrames.

Variable rs : list (list cell).

Lemma dict_get_map_cols (cols : dict (list cell -> cell)) (label : string) :
  dict_get (List.map (fun c => (fst c, List.map (snd c) rs)) cols) label
  = option_map (fun f => List.map f rs) (dict_get cols label).
Proof.
  induction cols as [|[k f] cols IH]; [reflexivity|].
  cbn [List.map dict_get fst snd]. now destruct (String.eqb label k).
Qed.

Lemma getitem_rowframe (cols : dict (list cell -> cell)) (label : string) (f : list cell -> cell) :
  dict_get cols label = Some f ->
  getitem (rowframe rs cols) label = inr (List.map f rs).
Proof.
  intros H. unfold getitem, rowframe. cbn [columns].
  now rewrite dict_get_map_cols, H.
Qed.

Lemma setitem_rowframe (cols : dict (list cell -> cell)) (label : string) (f : list cell -> cell) :
  setitem (rowframe rs cols) label (List.map f rs) = rowframe rs (assign cols label f).
Proof.
  unfold setitem, rowframe. cbn [nrows columns]. f_equal.
  induction cols as [|[k g] cols IH]; [reflexivity|].
  cbn [List.map assign fst snd].
  destruct (String.eqb label k); cbn [List.map fst snd]; [reflexivity | now rewrite IH].
Qed.

Lemma select_rowframe (cols picked : dict (list cell -> cell)) :
  Forall (fun c => dict_get cols (fst c) = Some (snd c)) picked ->
  getitems (rowframe rs cols) (List.map fst picked) = inr (rowframe rs picked).
Proof.
  intros Hall. unfold getitems, rowframe at 2.
  assert (Hsel : select (rowframe rs cols) (List.map fst picked)
                 = inr (List.map (fun c => (fst c, List.map (snd c) rs)) picked)).
  { induction Hall as [|[l f] picked Hl Hall IH]; [reflexivity|].
    cbn [List.map select fst snd] in *.
    rewrite (getitem_rowframe _ _ _ Hl). unfold bind at 1. rewrite IH. reflexivity. }
  rewrite Hsel. reflexivity.
Qed.

End RowFrames.

Lemma mask_select_map {A R} (p : R -> bool) (f : R -> A) (rs : list R) :
  mask_select (List.map p rs) (List.map f rs) = List.map f (List.filter p rs).
Proof.
  induction rs as [|r rs IH]; [reflexivity|].
  cbn [List.map mask_select List.filter].
  destruct (p r); cbn [List.map]; now rewrite IH.
Qed.

Lemma length_filter_mask {R} (p : R -> bool) (rs : list R) :
  length (List.filter id (List.map p rs)) = length (List.filter p rs).
Proof.
  induction rs as [|r rs IH]; [reflexivity|].
  cbn [List.map List.filter]. unfold id at 1.
  destruct (p r); cbn [length]; now rewrite IH.
Qed.

Lemma getmask_rowframe (rs : list (list cell)) (cols : dict (list cell -> cell))
  (p : list cell -> bool) :
  getmask (rowframe rs cols) (List.map p rs) = rowframe (List.filter p rs) cols.
Proof.
  unfold getmask, rowframe. cbn [columns]. rewrite length_filter_mask. f_equal.
  rewrite List.map_map. apply map_ext. intros c. cbn [fst snd].
  now rewrite mask_select_map.
Qed.

Lemma series_gt_zero_floats {R} (g : R -> float) (rs : list R) :
  series_gt_zero (List.map (fun r => CFloat (g r)) rs)
  = inr (List.map (fun r => PrimFloat.ltb 0 (g r)) rs).
Proof.
  induction rs as [|r rs IH]; [reflexivity|].
  cbn [List.map series_gt_zero cell_gt_zero]. unfold bind, ok. now rewrite IH.
Qed.

Lemma cell_add_text (a b : cell) :
  fips_cell a = true -> fips_cell b = true ->
  cell_add a b = inr (add_text a b) /\ fips_cell (add_text a b) = true.
Proof.
  unfold cell_add.
  destruct a as [s|x|f| |s], b as [t|y|g| |t]; cbn [fips_cell isna add_text];
    try discriminate; intros Ha Hb; rewrite ?Ha, ?Hb; cbn [orb];
    try (split; reflexivity).
Qed.

Lemma series_add_text {R} (f g : R -> cell) (rs : list R) :
  Forall (fun r => fips_cell (f r) = true /\ fips_cell (g r) = true) rs ->
  series_add (List.map f rs) (List.map g rs)
  = inr (List.map (fun r => add_text (f r) (g r)) rs).
Proof.
  induction 1 as [|r rs [Hf Hg] Hall IH]; [reflexivity|].
  cbn [List.map series_add].
  rewrite (proj1 (cell_add_text _ _ Hf Hg)). unfold bind, ok. now rewrite IH.
Qed.

(** ** The tract-level income cleaning step *)

Import island_county_income_tracts_map.

Lemma columns_of_rows_fields (j : nat) (header : list string) (rs : list (list cell)) :
  columns_of_rows j header rs
  = List.map (fun c => (fst c, List.map (snd c) rs)) (header_fields j header).
Proof.
  revert j. induction header as [|h header IH]; intros j; [reflexivity|].
  cbn [columns_of_rows header_fields List.map fst snd]. now rewrite IH.
Qed.

Lemma empty_columns_fields (j : nat) (header : list string) :
  List.map (fun h => (h, @nil cell)) header
  = List.map (fun c => (fst c, List.map (snd c) [])) (header_fields j header).
Proof.
  revert j. induction header as [|h header IH]; intros j; [reflexivity|].
  cbn [header_fields List.map fst snd]. now rewrite <- IH.
Qed.

Lemma widest_rectangular (n : nat) (r : list cell) (rs : list (list cell)) :
  Forall (fun r => length r = n) (r :: rs) -> widest (r :: rs) = n.
Proof.
  revert r. induction rs as [|r' rs IH]; intros r Hall;
    apply Forall_cons_iff in Hall as [Hr Hall].
  - cbn. lia.
  - change (widest (r :: r' :: rs)) with (Nat.max (length r) (widest (r' :: rs))).
    rewrite (IH _ Hall), Hr. lia.
Qed.

Lemma DataFrame_of_rows_rectangular (header : list string) (rs : list (list cell)) :
  Forall (fun r => length r = length header) rs ->
  DataFrame_of_rows rs header = inr (rowframe rs (header_fields 0 header)).
Proof.
  intros Hall. unfold DataFrame_of_rows, rowframe. destruct rs as [|r rs].
  - unfold ok. cbn [length]. now rewrite (empty_columns_fields 0).
  - rewrite (widest_rectangular _ _ _ Hall), Nat.eqb_refl.
    unfold ok. now rewrite columns_of_rows_fields.
Qed.

Lemma header_fields_get (j : nat) (header : list string) (label : string) :
  In label header -> exists f, dict_get (header_fields j header) label = Some f.
Proof.
  revert j. induction header as [|h header IH]; intros j; [intros []|].
  cbn [header_fields dict_get]. destruct (String.eqb label h) eqn:Hh; [eauto|].
  intros [->|Hin]; [now rewrite String.eqb_refl in Hh | now apply IH].
Qed.

Lemma field_get (header : list string) (label : string) (f : list cell -> cell) :
  dict_get (header_fields 0 header) label = Some f -> field header label = f.
Proof. intros H. unfold field. now rewrite H. Qed.

Lemma header_fields_fips (j : nat) (header : list string) (label : string)
  (f : list cell -> cell) (r : list cell) :
  dict_get (header_fields j header) label = Some f ->
  Forall (fun c => fips_cell c = true) r ->
  fips_cell (f r) = true.
Proof.
  revert j. induction header as [|h header IH]; intros j; [discriminate|].
  cbn [header_fields dict_get]. destruct (String.eqb label h).
  - intros [= <-] Hr. destruct (nth_in_or_default j r CNone) as [Hin| ->]; [|reflexivity].
    rewrite List.Forall_forall in Hr. now apply Hr.
  - apply IH.
Qed.

Lemma filter_implied {R} (p q : R -> bool) (rs : list R) :
  (forall r, q r = true -> p r = true) ->
  List.filter q (List.filter p rs) = List.filter q rs.
Proof.
  intros Himp. induction rs as [|r rs IH]; [reflexivity|].
  cbn [List.filter]. destruct (p r) eqn:Hp; cbn [List.filter].
  - now rewrite IH.
  - destruct (q r) eqn:Hq; [|exact IH].
    apply Himp in Hq. congruence.
Qed.

Lemma to_numeric_map {R} (stf : string -> option float) (f : R -> cell) (rs : list R) :
  float_series (to_numeric stf (List.map f rs))
  = List.map (fun r => CFloat (to_numeric_cell stf (f r))) rs.
Proof. unfold float_series, to_numeric. now rewrite !List.map_map. Qed.

Ltac dict_lookup :=
  repeat (rewrite dict_get_assign_ne by (let H := fresh in intros H; discriminate H));
  first [apply dict_get_assign_eq | assumption].

Lemma fetch_income_data_cleaned (stf : string -> option float) (t : json_table) (w : world) :
  census_answer t ->
  fetch_income_data stf (fun _ _ => ok t) w
  = (ok (Some (cleaned stf t)),
     World (heap w)
       (trace w
        ++ [Print "Fetching median household income data for Island County census tracts...";
            HttpGet base_url params;
            Print ("Successfully fetched data for "
                   ++ str_of_nat (length (retained stf t))
                   ++ " census tracts in Island County")])).
Proof.
  intros (_ & (HN & HE & HS & HC & HT) & Hrect & Htext).
  destruct (header_fields_get 0 _ _ HN) as [fN HfN].
  destruct (header_fields_get 0 _ _ HE) as [fE HfE].
  destruct (header_fields_get 0 _ _ HS) as [fS HfS].
  destruct (header_fields_get 0 _ _ HC) as [fC HfC].
  destruct (header_fields_get 0 _ _ HT) as [fT HfT].
  unfold cleaned, retained, income.
  rewrite (field_get _ _ _ HfN), (field_get _ _ _ HfE), (field_get _ _ _ HfS),
    (field_get _ _ _ HfC), (field_get _ _ _ HfT).
  assert (Hsc : Forall (fun r => fips_cell (fS r) = true /\ fips_cell (fC r) = true) (rows t)).
  { eapply List.Forall_impl; [|exact Htext]. intros r Hr.
    split; eapply header_fields_fips; eassumption. }
  assert (Hsct : Forall (fun r => fips_cell (add_text (fS r) (fC r)) = true
                                  /\ fips_cell (fT r) = true) (rows t)).
  { eapply List.Forall_impl; [|exact Htext]. intros r Hr. split.
    - apply cell_add_text; eapply header_fields_fips; eassumption.
    - eapply header_fields_fips; eassumption. }
  set (fI := fun r : list cell => CFloat (to_numeric_cell stf (fE r))).
  set (fF := fun r : list cell => add_text (add_text (fS r) (fC r)) (fT r)).
  unfold fetch_income_data, except_request. py_unfold. cbn [heap trace].
  rewrite (DataFrame_of_rows_rectangular _ _ Hrect). cbv beta iota.
  rewrite (getitem_rowframe _ _ _ _ HfN). cbv beta iota. rewrite setitem_rowframe.
  rewrite (getitem_rowframe _ _ "B19013_001E" fE) by dict_lookup. cbv beta iota.
  rewrite to_numeric_map. fold fI. rewrite setitem_rowframe.
  rewrite (getitem_rowframe _ _ "tract" fT) by dict_lookup. cbv beta iota.
  rewrite setitem_rowframe.
  rewrite (getitem_rowframe _ _ "county" fC) by dict_lookup. cbv beta iota.
  rewrite setitem_rowframe.
  rewrite (getitem_rowframe _ _ "state" fS) by dict_lookup. cbv beta iota.
  rewrite setitem_rowframe.
  rewrite (getitem_rowframe _ _ "state" fS) by dict_lookup. cbv beta iota.
  rewrite (getitem_rowframe _ _ "county" fC) by dict_lookup. cbv beta iota.
  rewrite (series_add_text _ _ _ Hsc). cbv beta iota.
  rewrite (getitem_rowframe _ _ "tract" fT) by dict_lookup. cbv beta iota.
  rewrite (series_add_text _ _ _ Hsct). cbv beta iota. fold fF.
  rewrite setitem_rowframe.
  unfold dropna. py_unfold.
  rewrite (getitem_rowframe _ _ "median_income" fI) by dict_lookup. cbv beta iota.
  rewrite List.map_map, getmask_rowframe.
  rewrite (getitem_rowframe _ _ "median_income" fI) by dict_lookup. cbv beta iota.
  match goal with
  | |- context [series_gt_zero (List.map fI ?rs1)] =>
      rewrite (series_gt_zero_floats (fun r => to_numeric_cell stf (fE r)) rs1
               : series_gt_zero (List.map fI rs1) = _)
  end.
  cbv beta iota.
  rewrite getmask_rowframe.
  rewrite filter_implied.
  2:{ intros r Hr. unfold notna, fI. cbn [isna].
      now rewrite (gt_zero_not_nan _ Hr). }
  pose proof (select_rowframe
                (List.filter (fun r => PrimFloat.ltb 0 (to_numeric_cell stf (fE r))) (rows t))
                (assign (assign (assign (assign (assign (assign
                   (header_fields 0 (header t)) "tract_name" fN) "median_income" fI)
                   "tract_fips" fT) "county_fips" fC) "state_fips" fS) "full_fips" fF)
                [ ("tract_name", fN); ("median_income", fI); ("full_fips", fF);
                  ("tract_fips", fT); ("county_fips", fC); ("state_fips", fS) ]) as Hsel.
  cbn [List.map fst] in Hsel. rewrite Hsel.
  2:{ repeat constructor; cbn [fst snd]; dict_lookup. }
  cbv beta iota. cbn [nrows rowframe]. rewrite <- !app_assoc. reflexivity.
Qed.

(** C10. The cleaning step of [fetch_income_data] returns the data rows
    whose median income is greater than zero and no other: a row whose
    income is less than or equal to zero is excluded, and so is a row
    whose income is exactly 0, which is not a suppression sentinel. *)
Theorem fetch_income_data_drops_nonpositive
  (stf : string -> option float) (t : json_table) (w : world) :
  census_answer t ->
  fst (fetch_income_data stf (fun _ _ => ok t) w) = ok (Some (cleaned stf t))
  /\ nrows (cleaned stf t) = length (retained stf t)
  /\ (forall r, In r (retained stf t)
                <-> In r (rows t) /\ PrimFloat.ltb 0 (income stf t r) = true)
  /\ (forall r, PrimFloat.leb (income stf t r) 0 = true -> ~ In r (retained stf t))
  /\ (forall r, income stf t r = 0%float -> ~ In r (retained stf t))
  /\ (forall r s, field (header t) "B19013_001E" r = CStr s -> stf s = Some 0%float ->
        ~ In r (retained stf t)).
Proof.
  intros Ht.
  assert (Hle : forall r, PrimFloat.leb (income stf t r) 0 = true ->
                          ~ In r (retained stf t)).
  { intros r Hr Hin. unfold retained in Hin. apply filter_In in Hin as [_ Hgt].
    rewrite (le_zero_not_gt _ Hr) in Hgt. discriminate. }
  assert (Hzero : forall r, income stf t r = 0%float -> ~ In r (retained stf t)).
  { intros r Hr. apply Hle. now rewrite Hr. }
  split; [now rewrite (fetch_income_data_cleaned stf t w Ht)|].
  split; [reflexivity|].
  split; [intros r; unfold retained; apply filter_In|].
  split; [exact Hle|]. split; [exact Hzero|].
  intros r s Hr Hs. apply Hzero. unfold income. rewrite Hr. cbn [to_numeric_cell].
  now rewrite Hs.
Qed.

Lemma island_answer_well_formed : census_answer samples.island_answer.
Proof.
  split; [apply (bool_decide_unpack _); vm_compute; exact I|].
  split; [cbn; tauto|].
  split; repeat constructor.
Qed.

Lemma fetch_income_data_drops_nonpositive_witness :
  fst (fetch_income_data samples.integer_text_to_float
         (fun _ _ => ok samples.island_answer) samples.empty_world)
  = ok (Some (cleaned samples.integer_text_to_float samples.island_answer))
  /\ cleaned samples.integer_text_to_float samples.island_answer
     = Frame 1 [ ("tract_name", [CStr "Census Tract 9701"]);
                 ("median_income", [CFloat 75000]);
                 ("full_fips", [CStr "53029970100"]);
                 ("tract_fips", [CStr "970100"]);
                 ("county_fips", [CStr "029"]);
                 ("state_fips", [CStr "53"]) ].
Proof.
  split; [|reflexivity].
  exact (proj1 (fetch_income_data_drops_nonpositive samples.integer_text_to_float
                  samples.island_answer samples.empty_world island_answer_well_formed)).
Defined.

(** C5, counterexample.  [calculate_percentage] turns a suppressed count
    into a percentage like any other number: the result is a negative
    number, not a missing value. *)
Lemma calculate_percentage_uses_sentinel :
  exists frame' r,
    calculate_percentage samples.integer_text_to_float 0 "B19013_001E" "B01003_001E" "pct"
      samples.suppressed_world
    = (ok 0%nat, World (<[0%nat := frame']> (heap samples.suppressed_world)) [])
    /\ getitem frame' "pct" = ok [CFloat r]
    /\ isna (CFloat r) = false
    /\ PrimFloat.ltb r 0 = true.
Proof.
  do 2 eexists. split.
  - exact (calculate_percentage_run samples.integer_text_to_float samples.suppressed_world 0
             samples.suppressed_table "B19013_001E" "B01003_001E" "pct"
             [CStr "-666666666"] [CStr "1000"] eq_refl eq_refl eq_refl).
  - split; [rewrite getitem_setitem_eq; reflexivity|]. split; reflexivity.
Qed.

(** C5, as amended.  The tract-level cleaning step treats the suppression
    sentinel like a missing or non-numeric value: a row whose income is
    the sentinel, and a row whose income does not convert, are both left
    out of the returned table.  [calculate_percentage] has no such
    filter: it keeps every row and computes the percentage of a sentinel
    operand from the number the sentinel denotes. *)
Theorem suppression_sentinel_handling
  (stf : string -> option float) (t : json_table) (w w' : world)
  (df : nat) (frame : DataFrame) (num den res : string) (ns ds : Series) :
  census_answer t ->
  heap w' !! df = Some frame ->
  well_formed frame ->
  getitem frame num = ok ns ->
  getitem frame den = ok ds ->
  (fst (fetch_income_data stf (fun _ _ => ok t) w) = ok (Some (cleaned stf t))
   /\ (forall r, income stf t r = suppression_sentinel -> ~ In r (retained stf t))
   /\ (forall r, PrimFloat.is_nan (income stf t r) = true -> ~ In r (retained stf t)))
  /\ (calculate_percentage stf df num den res w'
      = (ok df, World (<[df := setitem frame res (zip_with (ratio_cell stf) ns ds)]> (heap w'))
                      (trace w'))
      /\ forall n d, to_numeric_cell stf n = suppression_sentinel ->
           ratio_cell stf n d
           = CFloat (PrimFloat.mul
                       (PrimFloat.div suppression_sentinel (to_numeric_cell stf d)) 100)).
Proof.
  intros Ht Hh _ Hn Hd. split; [split; [|split]|split].
  - now rewrite (fetch_income_data_cleaned stf t w Ht).
  - intros r Hr Hin. unfold retained in Hin. apply filter_In in Hin as [_ Hgt].
    rewrite Hr in Hgt. discriminate.
  - intros r Hr Hin. unfold retained in Hin. apply filter_In in Hin as [_ Hgt].
    rewrite (gt_zero_not_nan _ Hgt) in Hr. discriminate.
  - now apply calculate_percentage_run.
  - intros n d Hs. unfold ratio_cell. now rewrite Hs.
Qed.

Lemma suppression_sentinel_handling_witness :
  fst (fetch_income_data samples.integer_text_to_float
         (fun _ _ => ok samples.island_answer) samples.empty_world)
  = ok (Some (cleaned samples.integer_text_to_float samples.island_answer))
  /\ income samples.integer_text_to_float samples.island_answer
       [CStr "Census Tract 9702"; CStr "-666666666"; CStr "53"; CStr "029"; CStr "970200"]
     = suppression_sentinel
  /\ getitem (cleaned samples.integer_text_to_float samples.island_answer) "tract_name"
     = ok [CStr "Census Tract 9701"].
Proof.
  split; [|split; reflexivity].
  refine (proj1 (proj1 (suppression_sentinel_handling samples.integer_text_to_float
                          samples.island_answer samples.empty_world samples.suppressed_world 0
                          samples.suppressed_table "B19013_001E" "B01003_001E" "pct"
                          [CStr "-666666666"] [CStr "1000"]
                          island_answer_well_formed eq_refl _ eq_refl eq_refl))).
  split; [apply (bool_decide_unpack _); vm_compute; exact I | repeat constructor].
Defined.

Lemma geoid_paths_agree_witness :
  exists df gdf w1' w2',
    census_fetch.fetch_county_data (fun _ => ok samples.county_records)
      ["B19013_001E"] 2021 "53" "*" samples.empty_world = (ok df, w1')
    /\ load_geometries (fun _ => ok samples.counties) "county" None 2021 samples.empty_world
       = (ok gdf, w2')
    /\ getitem df "GEOID" = ok [CStr "53029"; CStr "53033"]
    /\ getitem gdf "GEOID" = ok [CStr "53029"; CStr "53033"].
Proof.
  refine (geoid_paths_agree County [Fips "53" "029" ""; Fips "53" "033" ""]
            samples.county_records samples.counties ["B19013_001E"] 2021 "53" "*" None
            samples.empty_world samples.empty_world _ _).
  - split; [split; reflexivity|].
    split; [intros _; split; reflexivity | intros H; discriminate H].
  - intros H; discriminate H.
Defined.

Lemma load_geometries_misuse_witness :
  load_geometries (fun _ => ok samples.counties) "tract" None 2021 samples.empty_world
  = (raise (ValueError "State FIPS required for tract-level geometries"), samples.empty_world)
  /\ load_geometries (fun _ => ok samples.counties) "tract" (Some "") 2021 samples.empty_world
     = (raise (ValueError "State FIPS required for tract-level geometries"),
        samples.empty_world)
  /\ load_geometries (fun _ => ok samples.counties) "zip" None 2021 samples.empty_world
     = (raise (ValueError "Unknown level: zip"), samples.empty_world).
Proof.
  split; [|split].
  - exact (proj1 (load_geometries_misuse_detected_first
                    (fun _ => ok samples.counties) "tract" None 2021 samples.empty_world)
                 eq_refl eq_refl).
  - exact (proj1 (load_geometries_misuse_detected_first
                    (fun _ => ok samples.counties) "tract" (Some "") 2021 samples.empty_world)
                 eq_refl eq_refl).
  - refine (proj1 (proj2 (load_geometries_misuse_detected_first
                            (fun _ => ok samples.counties) "zip" None 2021
                            samples.empty_world)) _ _ _);
      intros H; discriminate H.
Defined.

(* ===================================================================== *)
(** * Further properties of the code *)
(* ===================================================================== *)

(** ** The constructor of the fetcher *)

Import census_fetcher.

(** X1. The fetcher is created with the key [k] exactly when [k] is not
    empty and is either the argument, or the CENSUS_API_KEY variable of
    the environment while the argument is absent or empty; in every other
    case the constructor raises the error that asks for a key.  So the
    client never gets an empty key, and an empty argument falls back on
    the environment. *)
Theorem init_key_resolution (api_key : option string) (environ : dict string) :
  (forall k,
     init api_key environ = ok k
     <-> k <> ""
         /\ (api_key = Some k
             \/ (truthy api_key = false /\ dict_get environ "CENSUS_API_KEY" = Some k)))
  /\ (init api_key environ = raise (ValueError KEY_REQUIRED)
      <-> truthy api_key = false
          /\ truthy (dict_get environ "CENSUS_API_KEY") = false).
Proof.
  unfold init.
  destruct api_key as [[|c a]|]; cbn [truthy];
    (destruct (dict_get environ "CENSUS_API_KEY") as [[|c' e]|]; cbn [truthy negb text]);
    (split; [intros k; split; [intros [= <-] | intros (Hk & [[= <-]|[Hf [= <-]]])] | split]);
    try discriminate; try tauto; try (intros [? ?]; discriminate);
    try (split; [discriminate | tauto]); try reflexivity; try congruence.
  all: try (split; [discriminate|]; right; split; reflexivity).
  all: try (split; [discriminate|]; left; reflexivity).
Qed.

Lemma init_key_resolution_witness :
  init (Some "") [("CENSUS_API_KEY", "abc123")] = ok "abc123"
  /\ init (Some "k1") [("CENSUS_API_KEY", "abc123")] = ok "k1"
  /\ init None [("HOME", "/root")] = raise (ValueError KEY_REQUIRED).
Proof.
  split; [|split].
  - apply (proj1 (init_key_resolution (Some "") [("CENSUS_API_KEY", "abc123")])).
    split; [discriminate | right; split; reflexivity].
  - apply (proj1 (init_key_resolution (Some "k1") [("CENSUS_API_KEY", "abc123")])).
    split; [discriminate | left; reflexivity].
  - apply (proj2 (init_key_resolution None [("HOME", "/root")])). split; reflexivity.
Defined.

(** ** The fetch functions *)

Section FetchRuns.

Variable acs5 : acs5_query -> result (list (dict cell)).
Variables (variables : list string) (year : Z) (state_fips county_fips : string).
Variable w : world.

Let after (q : acs5_query) : world := World (heap w) (trace w ++ [ApiGet q]).

(** X2. When the client answers with no rows, each fetch function raises
    [KeyError] on the ['state'] field instead of returning an empty
    table: the table of an empty answer has no columns to build the
    GEOID from. *)
Theorem fetch_empty_answer_raises :
  (acs5 (Acs5State ("NAME" :: variables) state_fips year) = ok [] ->
     fetch_state_data acs5 variables year state_fips w
     = (raise (KeyError "state"),
        after (Acs5State ("NAME" :: variables) state_fips year)))
  /\ (acs5 (Acs5StateCounty ("NAME" :: variables) state_fips county_fips year) = ok [] ->
     fetch_county_data acs5 variables year state_fips county_fips w
     = (raise (KeyError "state"),
        after (Acs5StateCounty ("NAME" :: variables) state_fips county_fips year)))
  /\ (acs5 (Acs5StateCountyTract ("NAME" :: variables) state_fips county_fips "*" year)
      = ok [] ->
     fetch_tract_data acs5 variables state_fips county_fips year w
     = (raise (KeyError "state"),
        after (Acs5StateCountyTract ("NAME" :: variables) state_fips county_fips "*" year))).
Proof.
  unfold fetch_state_data, fetch_county_data, fetch_tract_data, query, after.
  py_unfold. repeat split; intros ->; reflexivity.
Qed.

(** X3. Whatever the client answers, each fetch function sends exactly
    one query -- the [NAME] field followed by the requested variables,
    with the given filters and year, and every tract for the tract level
    -- prints nothing and leaves the store alone; an exception of the
    client is passed on unchanged. *)
Theorem fetch_sends_one_query :
  (snd (fetch_state_data acs5 variables year state_fips w)
   = after (Acs5State ("NAME" :: variables) state_fips year)
   /\ forall e, acs5 (Acs5State ("NAME" :: variables) state_fips year) = raise e ->
        fst (fetch_state_data acs5 variables year state_fips w) = raise e)
  /\ (snd (fetch_county_data acs5 variables year state_fips county_fips w)
      = after (Acs5StateCounty ("NAME" :: variables) state_fips county_fips year)
      /\ forall e,
           acs5 (Acs5StateCounty ("NAME" :: variables) state_fips county_fips year) = raise e ->
           fst (fetch_county_data acs5 variables year state_fips county_fips w) = raise e)
  /\ (snd (fetch_tract_data acs5 variables state_fips county_fips year w)
      = after (Acs5StateCountyTract ("NAME" :: variables) state_fips county_fips "*" year)
      /\ forall e,
           acs5 (Acs5StateCountyTract ("NAME" :: variables) state_fips county_fips "*" year)
           = raise e ->
           fst (fetch_tract_data acs5 variables state_fips county_fips year w) = raise e).
Proof.
  unfold fetch_state_data, fetch_county_data, fetch_tract_data, query, after.
  py_unfold. cbn [heap trace]. split; [|split].
  - destruct (acs5 _) as [e|data];
      [split; [reflexivity | intros ? [= <-]; reflexivity]|].
    split; [|discriminate].
    now destruct (getitem _ "state").
  - destruct (acs5 _) as [e|data];
      [split; [reflexivity | intros ? [= <-]; reflexivity]|].
    split; [|discriminate].
    destruct (getitem _ "state"); [reflexivity|].
    destruct (getitem _ "county"); [reflexivity|].
    now destruct (series_add _ _).
  - destruct (acs5 _) as [e|data];
      [split; [reflexivity | intros ? [= <-]; reflexivity]|].
    split; [|discriminate].
    destruct (getitem _ "state"); [reflexivity|].
    destruct (getitem _ "county"); [reflexivity|].
    destruct (series_add _ _); [reflexivity|].
    destruct (getitem _ "tract"); [reflexivity|].
    now destruct (series_add _ _).
Qed.

End FetchRuns.

Lemma fetch_empty_answer_raises_witness :
  fetch_county_data (fun _ => ok []) ["B19013_001E"] 2021 "53" "*" samples.empty_world
  = (raise (KeyError "state"),
     World ∅ [ApiGet (Acs5StateCounty ["NAME"; "B19013_001E"] "53" "*" 2021)]).
Proof.
  exact (proj1 (proj2 (fetch_empty_answer_raises (fun _ => ok []) ["B19013_001E"] 2021
                         "53" "*" samples.empty_world)) eq_refl).
Defined.

(** ** Loading geometries, further *)

(** X9. The state filter matters for the tract level only: for every
    other level [load_geometries] behaves the same whatever filter it is
    given, so a state passed with ['county'] still loads every county. *)
Theorem load_geometries_ignores_state
  (read_file : string -> result DataFrame) (level : string) (s1 s2 : option string)
  (year : Z) (w : world) :
  level <> "tract" ->
  load_geometries read_file level s1 year w = load_geometries read_file level s2 year w.
Proof.
  intros Hl. apply String.eqb_neq in Hl.
  unfold load_geometries. rewrite Hl.
  destruct (String.eqb level "state"); [reflexivity|].
  destruct (String.eqb level "county"); reflexivity.
Qed.

Lemma load_geometries_ignores_state_witness :
  load_geometries (fun _ => ok samples.counties) "county" (Some "53") 2021 samples.empty_world
  = load_geometries (fun _ => ok samples.counties) "county" None 2021 samples.empty_world.
Proof.
  apply load_geometries_ignores_state. intros H; discriminate H.
Defined.

(** ** The join, further *)

Lemma getitem_missing (df : DataFrame) (label : string) :
  ~ In label (labels df) -> getitem df label = raise (KeyError label).
Proof.
  unfold getitem, labels. intros Hnin.
  destruct (dict_get (columns df) label) as [col|] eqn:Hc; [|reflexivity].
  exfalso. apply Hnin. apply dict_get_In in Hc.
  change label with (fst (label, col)). now apply in_map.
Qed.

(** X10. When the join column is absent from the geometry table or from
    the metric table, [merge_data] raises [KeyError] on that column and
    prints nothing. *)
Theorem merge_data_missing_key
  (geometries data : DataFrame) (on : string) (w : world) :
  ~ In on (labels geometries) \/ ~ In on (labels data) ->
  merge_data geometries data on w = (raise (KeyError on), w).
Proof.
  intros H. unfold merge_data, merge_left. py_unfold.
  destruct (getitem geometries on) as [e|gk] eqn:Hg.
  - apply getitem_raises_KeyError in Hg. now subst.
  - destruct H as [H|H]; [rewrite (getitem_missing _ _ H) in Hg; discriminate|].
    now rewrite (getitem_missing _ _ H).
Qed.

Lemma merge_data_missing_key_witness :
  merge_data samples.counties samples.income "full_fips" samples.empty_world
  = (raise (KeyError "full_fips"), samples.empty_world).
Proof.
  apply merge_data_missing_key. left. cbn. intuition discriminate.
Defined.

(** ** The grid of subplots *)

Import multi_map.

(** X12. With no column to draw, [create_multi_map] fails on a division
    by zero.  Otherwise the grid has one or two columns and the axes it
    gives are enough for every map, with at most one left empty. *)
Theorem create_multi_map_grid (columns : list string) :
  (columns = [] -> grid columns = inl ZeroDivisionError)
  /\ (columns <> [] ->
      exists n_rows n_cols,
        grid columns = inr (n_rows, n_cols)
        /\ 1 <= n_cols <= 2
        /\ length columns <= n_axes columns (n_rows, n_cols)
        /\ n_axes columns (n_rows, n_cols) - length columns <= 1).
Proof.
  split; [intros ->; reflexivity|].
  intros Hne. unfold grid, n_axes.
  destruct columns as [|c1 [|c2 rest]]; [contradiction| |].
  - exists 1%nat, 1%nat. cbn. repeat split; lia.
  - set (n := length (c1 :: c2 :: rest)).
    assert (Hn : 2 <= n) by (unfold n; cbn [length]; lia).
    rewrite (Nat.min_l 2 n Hn). cbn [Nat.eqb].
    replace (Nat.eqb n 1) with false by (symmetry; apply Nat.eqb_neq; lia).
    do 2 eexists. split; [reflexivity|]. cbn [fst snd].
    pose proof (Nat.div_mod_eq (n + 2 - 1) 2) as Hd.
    pose proof (Nat.mod_upper_bound (n + 2 - 1) 2 ltac:(lia)) as Hm.
    repeat split; lia.
Qed.

Lemma create_multi_map_grid_witness :
  grid [] = inl ZeroDivisionError
  /\ exists n_rows n_cols,
       grid ["population"; "median_income"; "density"] = inr (n_rows, n_cols)
       /\ 1 <= n_cols <= 2
       /\ 3 <= n_axes ["population"; "median_income"; "density"] (n_rows, n_cols)
       /\ n_axes ["population"; "median_income"; "density"] (n_rows, n_cols) - 3 <= 1.
Proof.
  split.
  - apply (proj1 (create_multi_map_grid [])). reflexivity.
  - apply (proj2 (create_multi_map_grid ["population"; "median_income"; "density"])).
    discriminate.
Defined.

(** ** The percentage calculator, further *)

Lemma assign_assign {V} (d : dict V) (k : string) (v v' : V) :
  assign (assign d k v) k v' = assign d k v'.
Proof.
  induction d as [|[k0 v0] rest IH]; cbn [assign].
  - now rewrite String.eqb_refl.
  - destruct (String.eqb k k0) eqn:Hk; cbn [assign]; rewrite Hk; [reflexivity|].
    now rewrite IH.
Qed.

(** X6. When the result column is neither operand column, applying
    [calculate_percentage] a second time with the same arguments changes
    nothing: the table, the store and the trace are as after the first
    call. *)
Theorem calculate_percentage_idempotent
  (stf : string -> option float) (w : world) (df : nat) (frame : DataFrame)
  (num den res : string) (ns ds : Series) :
  heap w !! df = Some frame ->
  getitem frame num = ok ns ->
  getitem frame den = ok ds ->
  res <> num -> res <> den ->
  (do* again := calculate_percentage stf df num den res in
   calculate_percentage stf again num den res) w
  = calculate_percentage stf df num den res w.
Proof.
  intros Hh Hn Hd Hrn Hrd. unfold pbind at 1.
  rewrite (calculate_percentage_run stf w df frame num den res ns ds Hh Hn Hd).
  unfold ok. cbv beta iota.
  rewrite (calculate_percentage_run stf _ df
             (setitem frame res (zip_with (ratio_cell stf) ns ds)) num den res ns ds).
  - cbn [heap trace]. rewrite insert_insert_eq. unfold setitem. cbn [nrows columns].
    now rewrite assign_assign.
  - cbn [heap]. apply lookup_insert_eq.
  - rewrite getitem_setitem_ne by congruence. exact Hn.
  - rewrite getitem_setitem_ne by congruence. exact Hd.
Qed.

Lemma calculate_percentage_idempotent_witness :
  (do* again := calculate_percentage samples.integer_text_to_float 0 "num" "den" "pct" in
   calculate_percentage samples.integer_text_to_float again "num" "den" "pct")
    samples.ratio_world
  = calculate_percentage samples.integer_text_to_float 0 "num" "den" "pct" samples.ratio_world.
Proof.
  refine (calculate_percentage_idempotent samples.integer_text_to_float samples.ratio_world 0
            samples.ratio_table "num" "den" "pct"
            [CInt 50; CInt 50; CStr "N/A"] [CInt 200; CInt 0; CInt 200]
            eq_refl eq_refl eq_refl _ _); intros H; discriminate H.
Defined.

Lemma length_zip_with {A B C} (f : A -> B -> C) (a : list A) (b : list B) :
  length (zip_with f a b) = Nat.min (length a) (length b).
Proof.
  revert b. induction a as [|x a IH]; intros [|y b]; cbn [zip_with length]; try reflexivity.
  now rewrite IH.
Qed.

Lemma Forall_assign {V} (P : string * V -> Prop) (d : dict V) (k : string) (v : V) :
  Forall P d -> (forall k', P (k', v)) -> Forall P (assign d k v).
Proof.
  intros Hd Hv. induction Hd as [|[k0 v0] rest H0 Hrest IH]; cbn [assign].
  - constructor; [apply Hv | constructor].
  - destruct (String.eqb k k0); constructor; auto.
Qed.

Lemma has_label_In (ls : list string) (l : string) :
  has_label ls l = true <-> In l ls.
Proof.
  unfold has_label. rewrite existsb_exists. split.
  - intros (x & Hx & Heq). apply String.eqb_eq in Heq. now subst.
  - intros Hin. exists l. split; [assumption | apply String.eqb_refl].
Qed.

Lemma setitem_well_formed (df : DataFrame) (label : string) (col : Series) :
  well_formed df -> length col = nrows df -> well_formed (setitem df label col).
Proof.
  intros [Hnd Hlen] Hcol. split.
  - rewrite labels_setitem. destruct (has_label (labels df) label) eqn:Hl; [exact Hnd|].
    apply NoDup_app. split; [exact Hnd|]. split; [|apply NoDup_singleton].
    intros x Hx Hx'. apply list_elem_of_singleton in Hx'. subst x.
    apply list_elem_of_In, has_label_In in Hx. congruence.
  - unfold setitem. cbn [nrows columns]. apply Forall_assign; [exact Hlen|].
    intros k'. exact Hcol.
Qed.

(** X7. [calculate_percentage] keeps a table well formed: after the call
    the table still has distinct labels and every column, the result
    column included, has one cell per row. *)
Theorem calculate_percentage_keeps_well_formed
  (stf : string -> option float) (w : world) (df : nat) (frame : DataFrame)
  (num den res : string) (ns ds : Series) :
  heap w !! df = Some frame ->
  well_formed frame ->
  getitem frame num = ok ns ->
  getitem frame den = ok ds ->
  exists frame' pct,
    heap (snd (calculate_percentage stf df num den res w)) !! df = Some frame'
    /\ well_formed frame'
    /\ getitem frame' res = ok pct
    /\ length pct = nrows frame.
Proof.
  intros Hh Hwf Hn Hd.
  rewrite (calculate_percentage_run stf w df frame num den res ns ds Hh Hn Hd).
  assert (Hlen : length (zip_with (ratio_cell stf) ns ds) = nrows frame).
  { rewrite length_zip_with.
    rewrite (getitem_length _ _ _ (proj2 Hwf) Hn), (getitem_length _ _ _ (proj2 Hwf) Hd).
    apply Nat.min_id. }
  do 2 eexists. cbn [snd heap]. split; [apply lookup_insert_eq|].
  split; [now apply setitem_well_formed|].
  split; [apply getitem_setitem_eq | exact Hlen].
Qed.

Lemma calculate_percentage_keeps_well_formed_witness :
  exists frame' pct,
    heap (snd (calculate_percentage samples.integer_text_to_float 0 "num" "den" "pct"
                 samples.ratio_world)) !! 0%nat = Some frame'
    /\ well_formed frame'
    /\ getitem frame' "pct" = ok pct
    /\ length pct = 3%nat.
Proof.
  refine (calculate_percentage_keeps_well_formed samples.integer_text_to_float
            samples.ratio_world 0 samples.ratio_table "num" "den" "pct"
            [CInt 50; CInt 50; CStr "N/A"] [CInt 200; CInt 0; CInt 200]
            eq_refl _ eq_refl eq_refl).
  split; [apply (bool_decide_unpack _); vm_compute; exact I | repeat constructor].
Defined.

(** ** What a successful load returns *)

Ltac load_ok :=
  match goal with
  | |- (inl _, _) = (inr _, _) -> _ => intros H; discriminate H
  | |- (inr _, _) = (inr _, _) -> _ =>
      let H := fresh in
      intros H; injection H as <- <-; do 2 eexists;
      split; [eassumption|]; split; [tauto|]; split; [reflexivity|];
      split; [intros l Hl; now apply getitem_setitem_ne|];
      split; [eexists; apply getitem_setitem_eq|];
      cbn [nrows setitem]; rewrite <- !app_assoc; reflexivity
  end.

(** X8. Whenever [load_geometries] returns a table, the level is one of
    the three supported ones (with a state filter for tracts), the table
    is the boundary file read from the one address requested, with its
    rows and all its columns except for the GEOID column, which is always
    there, and the two progress lines were printed around the request. *)
Theorem load_geometries_result
  (read_file : string -> result DataFrame) (level : string) (state : option string)
  (year : Z) (w w' : world) (gdf : DataFrame) :
  load_geometries read_file level state year w = (ok gdf, w') ->
  exists url shp,
    read_file url = ok shp
    /\ (level = "state" \/ level = "county" \/ (level = "tract" /\ truthy state = true))
    /\ nrows gdf = nrows shp
    /\ (forall l, l <> "GEOID" -> getitem gdf l = getitem shp l)
    /\ (exists geoid, getitem gdf "GEOID" = ok geoid)
    /\ w' = World (heap w)
              (trace w
               ++ [Print ("Loading " ++ level ++ "-level geometries from Census TIGER/Line...");
                   HttpGet url [];
                   Print ("Loaded " ++ str_of_nat (nrows shp) ++ " " ++ level
                          ++ " geometries")]).
Proof.
  unfold load_geometries. py_unfold.
  destruct (String.eqb level "state") eqn:E1.
  { apply String.eqb_eq in E1. cbn [heap trace].
    destruct (read_file _) as [e|shp] eqn:Hr; [load_ok|].
    destruct (getitem shp "STATEFP") as [e|c1]; load_ok. }
  destruct (String.eqb level "county") eqn:E2.
  { apply String.eqb_eq in E2. cbn [heap trace].
    destruct (read_file _) as [e|shp] eqn:Hr; [load_ok|].
    destruct (getitem shp "STATEFP") as [e|c1]; [load_ok|].
    destruct (getitem shp "COUNTYFP") as [e|c2]; [load_ok|].
    destruct (series_add c1 c2) as [e|g]; load_ok. }
  destruct (String.eqb level "tract") eqn:E3; [|load_ok].
  apply String.eqb_eq in E3.
  destruct (truthy state) eqn:Hs; cbn [negb]; [|load_ok].
  cbn [heap trace].
  destruct (read_file _) as [e|shp] eqn:Hr; [load_ok|].
  destruct (getitem shp "STATEFP") as [e|c1]; [load_ok|].
  destruct (getitem shp "COUNTYFP") as [e|c2]; [load_ok|].
  destruct (series_add c1 c2) as [e|g12]; [load_ok|].
  destruct (getitem shp "TRACTCE") as [e|c3]; [load_ok|].
  destruct (series_add g12 c3) as [e|g]; load_ok.
Qed.

Lemma load_geometries_result_witness :
  exists url shp,
    (fun _ : string => ok samples.counties) url = ok shp
    /\ ("county" = "state" \/ "county" = "county"
        \/ ("county" = "tract" /\ truthy None = true))
    /\ nrows (setitem samples.counties "GEOID" [CStr "53029"; CStr "53033"]) = nrows shp
    /\ (forall l, l <> "GEOID" ->
          getitem (setitem samples.counties "GEOID" [CStr "53029"; CStr "53033"]) l
          = getitem shp l)
    /\ (exists geoid,
          getitem (setitem samples.counties "GEOID" [CStr "53029"; CStr "53033"]) "GEOID"
          = ok geoid)
    /\ World ∅ [Print "Loading county-level geometries from Census TIGER/Line...";
                HttpGet "https://www2.census.gov/geo/tiger/TIGER2021/COUNTY/tl_2021_us_county.zip" [];
                Print "Loaded 2 county geometries"]
       = World (heap samples.empty_world)
           (trace samples.empty_world
            ++ [Print ("Loading " ++ "county" ++ "-level geometries from Census TIGER/Line...");
                HttpGet url [];
                Print ("Loaded " ++ str_of_nat (nrows shp) ++ " " ++ "county"
                       ++ " geometries")]).
Proof.
  exact (load_geometries_result (fun _ => ok samples.counties) "county" None 2021
           samples.empty_world _ _ eq_refl).
Defined.

(** ** Labels the two tables share *)




(** ** Failures of the tract-level fetch *)

Lemma header_fields_missing (j : nat) (header : list string) (label : string) :
  ~ In label header -> dict_get (header_fields j header) label = None.
Proof.
  revert j. induction header as [|h header IH]; intros j Hnin; [reflexivity|].
  cbn [header_fields dict_get]. destruct (String.eqb label h) eqn:Hh.
  - apply String.eqb_eq in Hh. subst. exfalso. apply Hnin. now left.
  - apply IH. intros Hin. apply Hnin. now right.
Qed.

Lemma getitem_rowframe_missing (rs : list (list cell)) (cols : dict (list cell -> cell))
  (label : string) :
  dict_get cols label = None -> getitem (rowframe rs cols) label = inl (KeyError label).
Proof.
  intros H. unfold getitem, rowframe. cbn [columns].
  now rewrite dict_get_map_cols, H.
Qed.

(** X13. [fetch_income_data] turns a failed request into the answer
    [None], after printing the error; it catches nothing else: any other
    exception of the request is passed on, and an answer that lacks the
    income column makes it raise [KeyError] on that column instead of
    returning [None]. *)
Theorem fetch_income_data_failures
  (stf : string -> option float)
  (get_json : string -> list (string * string) -> result json_table) (w : world) :
  (forall msg,
     get_json base_url params = raise (RequestException msg) ->
     fetch_income_data stf get_json w
     = (ok None,
        World (heap w)
          (trace w
           ++ [Print "Fetching median household income data for Island County census tracts...";
               HttpGet base_url params;
               Print ("Error fetching data: " ++ msg)])))
  /\ (forall e,
        get_json base_url params = raise e ->
        (forall msg, e <> RequestException msg) ->
        fst (fetch_income_data stf get_json w) = raise e)
  /\ (forall t,
        get_json base_url params = ok t ->
        Forall (fun r => length r = length (header t)) (rows t) ->
        In "NAME" (header t) ->
        ~ In "B19013_001E" (header t) ->
        fst (fetch_income_data stf get_json w) = raise (KeyError "B19013_001E")).
Proof.
  split; [|split].
  - intros msg Hg. unfold fetch_income_data, except_request. py_unfold.
    cbn [heap trace]. rewrite Hg. cbn [heap trace]. now rewrite <- !app_assoc.
  - intros e Hg Hne. unfold fetch_income_data, except_request. py_unfold.
    cbn [heap trace]. rewrite Hg.
    destruct e; try reflexivity. exfalso. now apply (Hne msg).
  - intros t Hg Hrect HN HE.
    destruct (header_fields_get 0 _ _ HN) as [fN HfN].
    unfold fetch_income_data, except_request. py_unfold. cbn [heap trace].
    rewrite Hg. rewrite (DataFrame_of_rows_rectangular _ _ Hrect). cbv beta iota.
    rewrite (getitem_rowframe _ _ _ _ HfN). cbv beta iota. rewrite setitem_rowframe.
    rewrite getitem_rowframe_missing; [reflexivity|].
    rewrite dict_get_assign_ne by (intros H; discriminate H).
    now apply header_fields_missing.
Qed.

Lemma fetch_income_data_failures_witness :
  fetch_income_data samples.integer_text_to_float
    (fun _ _ => raise (RequestException "503 Server Error")) samples.empty_world
  = (ok None,
     World ∅
       [Print "Fetching median household income data for Island County census tracts...";
        HttpGet base_url params;
        Print "Error fetching data: 503 Server Error"])
  /\ fst (fetch_income_data samples.integer_text_to_float
            (fun _ _ => ok more_samples.names_only) samples.empty_world)
     = raise (KeyError "B19013_001E").
Proof.
  split.
  - exact (proj1 (fetch_income_data_failures samples.integer_text_to_float
                    (fun _ _ => raise (RequestException "503 Server Error"))
                    samples.empty_world) "503 Server Error" eq_refl).
  - refine (proj2 (proj2 (fetch_income_data_failures samples.integer_text_to_float
                            (fun _ _ => ok more_samples.names_only) samples.empty_world))
                  more_samples.names_only eq_refl _ _ _).
    + repeat constructor.
    + cbn. tauto.
    + cbn. intuition discriminate.
Defined.

(** ** The county-level income cleaning step *)

Lemma series_str_replace_map {R} (f : R -> cell) (rs : list R) :
  washington_income_map.series_str_replace " County, Washington" "" (List.map f rs)
  = List.map (fun r => county_name (f r)) rs.
Proof. unfold washington_income_map.series_str_replace. now rewrite List.map_map. Qed.

Lemma fetch_income_data_counties (stf : string -> option float) (t : json_table) (w : world) :
  county_answer t ->
  washington_income_map.fetch_income_data stf (fun _ _ => ok t) w
  = (ok (Some (cleaned_counties stf t)),
     World (heap w)
       (trace w
        ++ [Print "Fetching median household income data from US Census API...";
            HttpGet washington_income_map.base_url washington_income_map.params;
            Print ("Successfully fetched data for "
                   ++ str_of_nat (length (with_income stf t))
                   ++ " Washington counties")])).
Proof.
  intros (_ & (HN & HE & HS & HC) & Hrect & Htext).
  destruct (header_fields_get 0 _ _ HN) as [fN HfN].
  destruct (header_fields_get 0 _ _ HE) as [fE HfE].
  destruct (header_fields_get 0 _ _ HS) as [fS HfS].
  destruct (header_fields_get 0 _ _ HC) as [fC HfC].
  unfold cleaned_counties, with_income, county_income.
  rewrite (field_get _ _ _ HfN), (field_get _ _ _ HfE), (field_get _ _ _ HfS),
    (field_get _ _ _ HfC).
  assert (Hsc : Forall (fun r => fips_cell (fS r) = true /\ fips_cell (fC r) = true) (rows t)).
  { eapply List.Forall_impl; [|exact Htext]. intros r Hr.
    split; eapply header_fields_fips; eassumption. }
  set (fI := fun r : list cell => CFloat (to_numeric_cell stf (fE r))).
  set (fF := fun r : list cell => add_text (fS r) (fC r)).
  set (fName := fun r : list cell => county_name (fN r)).
  unfold washington_income_map.fetch_income_data, except_request. py_unfold.
  cbn [heap trace].
  rewrite (DataFrame_of_rows_rectangular _ _ Hrect). cbv beta iota.
  rewrite (getitem_rowframe _ _ _ _ HfN). cbv beta iota.
  rewrite series_str_replace_map. fold fName. rewrite setitem_rowframe.
  rewrite (getitem_rowframe _ _ "S1903_C03_001E" fE) by dict_lookup. cbv beta iota.
  rewrite to_numeric_map. fold fI. rewrite setitem_rowframe.
  rewrite (getitem_rowframe _ _ "county" fC) by dict_lookup. cbv beta iota.
  rewrite setitem_rowframe.
  rewrite (getitem_rowframe _ _ "state" fS) by dict_lookup. cbv beta iota.
  rewrite setitem_rowframe.
  rewrite (getitem_rowframe _ _ "state" fS) by dict_lookup. cbv beta iota.
  rewrite (getitem_rowframe _ _ "county" fC) by dict_lookup. cbv beta iota.
  rewrite (series_add_text _ _ _ Hsc). cbv beta iota. fold fF.
  rewrite setitem_rowframe.
  unfold dropna. py_unfold.
  rewrite (getitem_rowframe _ _ "median_income" fI) by dict_lookup. cbv beta iota.
  rewrite List.map_map, getmask_rowframe.
  pose proof (select_rowframe
                (List.filter (fun r => notna (fI r)) (rows t))
                (assign (assign (assign (assign (assign
                   (header_fields 0 (header t)) "county_name" fName) "median_income" fI)
                   "county_fips" fC) "state_fips" fS) "full_fips" fF)
                [ ("county_name", fName); ("median_income", fI); ("full_fips", fF);
                  ("county_fips", fC); ("state_fips", fS) ]) as Hsel.
  cbn [List.map fst] in Hsel. rewrite Hsel.
  2:{ repeat constructor; cbn [fst snd]; dict_lookup. }
  cbv beta iota. cbn [nrows rowframe]. rewrite <- !app_assoc. reflexivity.
Qed.

(** X14. The cleaning step of the county-level [fetch_income_data]
    returns the data rows whose income converts to a number and no
    other; unlike the tract-level step it has no test on the sign, so a
    row carrying the negative suppression sentinel, or zero, is
    returned.  The county name is the [NAME] text without
    " County, Washington". *)
Theorem county_fetch_keeps_every_number
  (stf : string -> option float) (t : json_table) (w : world) :
  county_answer t ->
  fst (washington_income_map.fetch_income_data stf (fun _ _ => ok t) w)
  = ok (Some (cleaned_counties stf t))
  /\ nrows (cleaned_counties stf t) = length (with_income stf t)
  /\ (forall r, In r (with_income stf t)
                <-> In r (rows t) /\ PrimFloat.is_nan (county_income stf t r) = false)
  /\ (forall r, In r (rows t) -> county_income stf t r = suppression_sentinel ->
        In r (with_income stf t))
  /\ (forall r, In r (rows t) -> county_income stf t r = 0%float ->
        In r (with_income stf t)).
Proof.
  intros Ht.
  assert (Hin : forall r, In r (with_income stf t)
                          <-> In r (rows t) /\ PrimFloat.is_nan (county_income stf t r) = false).
  { intros r. unfold with_income. rewrite filter_In, negb_true_iff. reflexivity. }
  split; [now rewrite (fetch_income_data_counties stf t w Ht)|].
  split; [reflexivity|]. split; [exact Hin|].
  split; intros r Hr Hv; apply Hin; (split; [exact Hr|]); now rewrite Hv.
Qed.

Lemma county_rows_well_formed : county_answer more_samples.county_rows.
Proof.
  split; [apply (bool_decide_unpack _); vm_compute; exact I|].
  split; [cbn; tauto|].
  split; repeat constructor.
Qed.

Lemma county_fetch_keeps_every_number_witness :
  fst (washington_income_map.fetch_income_data samples.integer_text_to_float
         (fun _ _ => ok more_samples.county_rows) samples.empty_world)
  = ok (Some (cleaned_counties samples.integer_text_to_float more_samples.county_rows))
  /\ cleaned_counties samples.integer_text_to_float more_samples.county_rows
     = Frame 2 [ ("county_name", [CStr "King"; CStr "Garfield"]);
                 ("median_income", [CFloat 106326; CFloat (-666666666)]);
                 ("full_fips", [CStr "53033"; CStr "53023"]);
                 ("county_fips", [CStr "033"; CStr "023"]);
                 ("state_fips", [CStr "53"; CStr "53"]) ].
Proof.
  split; [|reflexivity].
  exact (proj1 (county_fetch_keeps_every_number samples.integer_text_to_float
                  more_samples.county_rows samples.empty_world county_rows_well_formed)).
Defined.

(** ** The table of the client's rows *)

Lemma union_keys_In (k : string) (seen ks : list string) :
  In k (union_keys seen ks) <-> In k seen \/ In k ks.
Proof.
  revert seen. induction ks as [|k0 ks IH]; intros seen; cbn [union_keys].
  - cbn. tauto.
  - destruct (existsb (String.eqb k0) seen) eqn:Hs; rewrite IH.
    + apply (has_label_In seen k0) in Hs. cbn. intuition (subst; auto).
    + rewrite in_app_iff. cbn. tauto.
Qed.

Lemma record_keys_In (data : list (dict cell)) (seen : list string) (k : string) :
  In k (fold_left (fun seen r => union_keys seen (dict_keys r)) data seen)
  <-> In k seen \/ carries data k.
Proof.
  unfold carries. revert seen. induction data as [|r data IH]; intros seen; cbn [fold_left].
  - split; [tauto | intros [H|(r & [] & _)]; exact H].
  - rewrite IH, union_keys_In. split.
    + intros [[H|H]|(r' & Hr' & Hk)]; [tauto | right; exists r; cbn; tauto |].
      right. exists r'. cbn. tauto.
    + intros [H|(r' & [<-|Hr'] & Hk)]; [tauto | tauto |].
      right. exists r'. tauto.
Qed.

Lemma dict_get_keyed {V} (f : string -> V) (ks : list string) (k : string) :
  dict_get (List.map (fun k => (k, f k)) ks) k
  = if has_label ks k then Some (f k) else None.
Proof.
  unfold has_label. induction ks as [|k0 ks IH]; [reflexivity|].
  cbn [List.map dict_get existsb]. destruct (String.eqb k k0) eqn:Hk; [|exact IH].
  apply String.eqb_eq in Hk. now subst.
Qed.

Lemma getitem_of_records (data : list (dict cell)) (k : string) :
  carries data k ->
  getitem (DataFrame_of_records data) k = inr (List.map (record_field k) data).
Proof.
  intros Hk. unfold getitem, DataFrame_of_records. cbn [columns].
  rewrite (dict_get_keyed (fun k => List.map (fun r => match dict_get r k with
                                                       | Some v => v
                                                       | None => CFloat nan
                                                       end) data)).
  rewrite (proj2 (has_label_In _ _)); [reflexivity|].
  apply record_keys_In. now right.
Qed.

Lemma isna_add_text (a b : cell) :
  fips_cell a = true -> fips_cell b = true ->
  isna (add_text a b) = isna a || isna b.
Proof.
  destruct a as [s|x|f| |s], b as [t|y|g| |t]; cbn [fips_cell isna add_text];
    try discriminate; intros Ha Hb; rewrite ?Ha, ?Hb, ?orb_true_r; reflexivity.
Qed.

Section TractRecords.

Variable acs5 : acs5_query -> result (list (dict cell)).
Variables (variables : list string) (year : Z) (state_fips county_fips : string).
Variable w : world.
Variable data : list (dict cell).

(** X4. On an answer whose records carry the three component fields,
    each with text or a null, [fetch_tract_data] returns one row per
    record with every field of the answer as a column, and its GEOID
    column holds for each record the three codes joined; the GEOID of a
    record is missing exactly when one of its components is. *)
Theorem fetch_tract_data_geoid :
  acs5 (Acs5StateCountyTract ("NAME" :: variables) state_fips county_fips "*" year) = ok data ->
  carries data "state" -> carries data "county" -> carries data "tract" ->
  Forall (fun r => fips_cell (record_field "state" r) = true
                   /\ fips_cell (record_field "county" r) = true
                   /\ fips_cell (record_field "tract" r) = true) data ->
  exists df,
    fst (fetch_tract_data acs5 variables state_fips county_fips year w) = ok df
    /\ nrows df = length data
    /\ (forall k, k <> "GEOID" -> carries data k ->
          getitem df k = ok (List.map (record_field k) data))
    /\ getitem df "GEOID"
       = ok (List.map (fun r => add_text (add_text (record_field "state" r)
                                                   (record_field "county" r))
                                         (record_field "tract" r)) data)
    /\ (forall r, In r data ->
          isna (add_text (add_text (record_field "state" r) (record_field "county" r))
                         (record_field "tract" r))
          = isna (record_field "state" r) || isna (record_field "county" r)
            || isna (record_field "tract" r)).
Proof.
  intros Ha Hs Hc Ht Hall.
  unfold fetch_tract_data, query. py_unfold. rewrite Ha.
  rewrite (getitem_of_records _ _ Hs), (getitem_of_records _ _ Hc).
  rewrite series_add_text.
  2:{ eapply List.Forall_impl; [|exact Hall]. cbv beta. tauto. }
  rewrite (getitem_of_records _ _ Ht).
  rewrite (series_add_text
             (fun r => add_text (record_field "state" r) (record_field "county" r))
             (record_field "tract")).
  2:{ eapply List.Forall_impl; [|exact Hall]. cbv beta. intros r (H1 & H2 & H3).
      split; [now apply cell_add_text | exact H3]. }
  eexists. cbn [fst]. split; [reflexivity|].
  split; [reflexivity|].
  split; [intros k Hk Hcar; rewrite getitem_setitem_ne by exact Hk;
          now apply getitem_of_records|].
  split; [apply getitem_setitem_eq|].
  intros r Hr. rewrite List.Forall_forall in Hall. destruct (Hall r Hr) as (H1 & H2 & H3).
  rewrite isna_add_text; [|now apply cell_add_text | exact H3].
  now rewrite isna_add_text.
Qed.

End TractRecords.

Lemma fetch_tract_data_geoid_witness :
  exists df,
    fst (fetch_tract_data (fun _ => ok more_samples.tract_records) [] "53" "029" 2021
           samples.empty_world) = ok df
    /\ nrows df = 2%nat
    /\ getitem df "GEOID" = ok [CStr "53029970100"; CFloat nan].
Proof.
  destruct (fetch_tract_data_geoid (fun _ => ok more_samples.tract_records) [] 2021
              "53" "029" samples.empty_world more_samples.tract_records eq_refl)
    as (df & Hrun & Hrows & _ & Hgeoid & _).
  - eexists. split; [left; reflexivity | cbn; tauto].
  - eexists. split; [left; reflexivity | cbn; tauto].
  - eexists. split; [left; reflexivity | cbn; tauto].
  - repeat constructor.
  - exists df. split; [exact Hrun|]. split; [exact Hrows | exact Hgeoid].
Defined.

Lemma append_inj_length (a a' b b' : string) :
  String.length a = String.length a' -> a ++ b = a' ++ b' -> a = a' /\ b = b'.
Proof.
  revert a'. induction a as [|c a IH]; intros [|c' a']; cbn [String.length];
    try discriminate.
  - intros _ H. split; [reflexivity | exact H].
  - intros [= Hlen]. rewrite !append_cons. intros [= -> H].
    destruct (IH _ Hlen H) as [-> ->]. split; reflexivity.
Qed.

Lemma length_append (a b : string) :
  String.length (a ++ b) = (String.length a + String.length b)%nat.
Proof.
  induction a as [|c a IH]; [reflexivity|].
  rewrite append_cons. cbn [String.length]. now rewrite IH.
Qed.

Section CountyRecords.

Variable acs5 : acs5_query -> result (list (dict cell)).
Variables (variables : list string) (year : Z) (state_fips county_fips : string).
Variable w : world.
Variable data : list (dict cell).

(** X5. When every record of the answer carries a state code of two
    characters and a county code of three, [fetch_county_data] gives
    every row a GEOID of five characters, and two rows have the same
    GEOID only if they have the same state code and the same county
    code. *)
Theorem fetch_county_data_geoid_injective :
  acs5 (Acs5StateCounty ("NAME" :: variables) state_fips county_fips year) = ok data ->
  carries data "state" -> carries data "county" ->
  Forall (fun r => code_of_width 2 (record_field "state" r)
                   /\ code_of_width 3 (record_field "county" r)) data ->
  exists df geoid,
    fst (fetch_county_data acs5 variables year state_fips county_fips w) = ok df
    /\ getitem df "GEOID" = ok geoid
    /\ length geoid = length data
    /\ Forall (code_of_width 5) geoid
    /\ (forall i j ri rj,
          nth_error data i = Some ri -> nth_error data j = Some rj ->
          nth_error geoid i = nth_error geoid j ->
          record_field "state" ri = record_field "state" rj
          /\ record_field "county" ri = record_field "county" rj).
Proof.
  intros Ha Hs Hc Hall.
  unfold fetch_county_data, query. py_unfold. rewrite Ha.
  rewrite (getitem_of_records _ _ Hs), (getitem_of_records _ _ Hc).
  rewrite series_add_text.
  2:{ eapply List.Forall_impl; [|exact Hall]. cbv beta.
      intros r ((s & -> & _) & (c & -> & _)). split; reflexivity. }
  do 2 eexists. cbn [fst]. split; [reflexivity|].
  split; [apply getitem_setitem_eq|].
  split; [apply length_map|].
  split.
  - apply Forall_map. eapply List.Forall_impl; [|exact Hall]. cbv beta.
    intros r ((s & -> & Hs2) & (c & -> & Hc3)). exists (s ++ c).
    split; [reflexivity|]. now rewrite length_append, Hs2, Hc3.
  - intros i j ri rj Hi Hj. rewrite !nth_error_map, Hi, Hj. cbn [option_map].
    rewrite List.Forall_forall in Hall.
    destruct (Hall ri (nth_error_In _ _ Hi)) as ((s1 & -> & Hs1) & (c1 & -> & _)).
    destruct (Hall rj (nth_error_In _ _ Hj)) as ((s2 & -> & Hs2) & (c2 & -> & _)).
    cbn [add_text]. intros [= H].
    destruct (append_inj_length s1 s2 c1 c2) as [-> ->]; [congruence | exact H |].
    split; reflexivity.
Qed.

End CountyRecords.

Lemma fetch_county_data_geoid_injective_witness :
  exists df geoid,
    fst (fetch_county_data (fun _ => ok samples.county_records) ["B19013_001E"] 2021
           "53" "*" samples.empty_world) = ok df
    /\ getitem df "GEOID" = ok geoid
    /\ length geoid = 2%nat
    /\ Forall (code_of_width 5) geoid.
Proof.
  destruct (fetch_county_data_geoid_injective (fun _ => ok samples.county_records)
              ["B19013_001E"] 2021 "53" "*" samples.empty_world samples.county_records
              eq_refl)
    as (df & geoid & Hrun & Hg & Hlen & Hw & _).
  - eexists. split; [left; reflexivity | cbn; tauto].
  - eexists. split; [left; reflexivity | cbn; tauto].
  - repeat constructor; eexists; split; reflexivity.
  - exists df, geoid. repeat split; assumption.
Defined.
